(** * FHIR Bridge log processor: a shallow embedding of
      [infra/lambda/log_processor.py] and the properties of its
      classification and metric-extraction pipeline.

    Modelling conventions.
    - A Python [str] is a Rocq [string]; each character stands for one code
      point below 256.  On that range the regular-expression class [\d] is
      exactly ['0'..'9'] and [str.lower] maps a character to one character.
    - A Python [int] is a [Z] (unbounded, as in Python).  [int(s)] refuses
      a string of more than [Py.int_max_str_digits] digits with [ValueError];
      the interpreter runs with its default limit of 4300 digits, which the
      source does not change.
    - A Python [float] is a [spec_float] of binary64.  [a / b] on two ints is
      the quotient rounded to the nearest float, ties to even, and raises
      [OverflowError] when the rounded quotient is beyond the largest float
      (see [Py.true_div]).
    - A value read from JSON is a [pyval]; the operations used by the source
      ([x[k]], [k in x], [for e in x], [x.lower()], [x.get(k)]) are defined on
      every [pyval] and raise what Python raises on the wrong type.
    - Exceptions are instances of [Exception]; a function that may raise
      returns a [result].
    - Library and service calls (base64, gzip, json, datetime, boto3) are
      fields of [PyRuntime] and [World]; every request sent to a service is
      recorded in the state. *)

From Stdlib Require Import String Ascii List ZArith Lia Bool Arith QArith Qpower.
From Stdlib Require Import Floats.SpecFloat DecimalString.
Import ListNotations.
Local Open Scope string_scope.
Local Open Scope Z_scope.
Set Warnings "-register-all".

(** ** Python strings *)

Module PyStr.

Definition is_digit (c : ascii) : bool :=
  let n := nat_of_ascii c in (48 <=? n)%nat && (n <=? 57)%nat.

Definition digit_value (c : ascii) : Z := Z.of_nat (nat_of_ascii c) - 48.

(** [int(s)] for a string of decimal digits, most significant first. *)
Fixpoint int_of_digits_from (acc : Z) (s : string) : Z :=
  match s with
  | EmptyString => acc
  | String c s' => int_of_digits_from (10 * acc + digit_value c) s'
  end.

Definition int_of_digits (s : string) : Z := int_of_digits_from 0 s.

Fixpoint all_digits (s : string) : bool :=
  match s with
  | EmptyString => true
  | String c s' => is_digit c && all_digits s'
  end.

(** [c.lower()] for one code point below 256: the ASCII capitals and the
    Latin-1 capitals U+00C0..U+00DE (U+00D7, the multiplication sign, is not a
    letter). *)
Definition lower_char (c : ascii) : ascii :=
  let n := nat_of_ascii c in
  if ((65 <=? n)%nat && (n <=? 90)%nat)
     || ((192 <=? n)%nat && (n <=? 222)%nat && negb (n =? 215)%nat)
  then ascii_of_nat (n + 32)
  else c.

(** [s.lower()] *)
Fixpoint lower (s : string) : string :=
  match s with
  | EmptyString => EmptyString
  | String c s' => String (lower_char c) (lower s')
  end.

(** [sub in s] for two strings: [sub] starts at some position of [s]. *)
Fixpoint contains (sub s : string) : bool :=
  String.prefix sub s
  || match s with
     | EmptyString => false
     | String _ s' => contains sub s'
     end.

(** The declarative reading of containment. *)
Definition occurs_in (sub s : string) : Prop :=
  exists pre suf : string, s = pre ++ sub ++ suf.

(** Containment that ignores letter case: some substring of [s] has the
    same lower-case form as [sub]. *)
Definition occurs_in_ignoring_case (sub s : string) : Prop :=
  exists pre mid suf : string, s = pre ++ mid ++ suf /\ lower mid = lower sub.

End PyStr.

(** ** The regular expression [(\d+)ms] *)

Module Re.
Import PyStr.

(** One attempt of [(\d+)ms] at the start of [s], as the backtracking
    matcher runs it: [\d+] takes a digit, greedily tries to take more, and
    when that fails gives the rest of the pattern, [ms], its turn.  The
    result is group 1. *)
Fixpoint match_digits_ms (s : string) : option string :=
  match s with
  | EmptyString => None
  | String c s' =>
      if is_digit c then
        match match_digits_ms s' with
        | Some g => Some (String c g)
        | None => if String.prefix "ms" s' then Some (String c EmptyString) else None
        end
      else None
  end.

(** [re.search(r'(\d+)ms', s)]: the attempt is made at position 0, 1, 2, ...
    and the first that succeeds is returned ([None] when none does). *)
Fixpoint search_digits_ms (s : string) : option string :=
  match match_digits_ms s with
  | Some g => Some g
  | None =>
      match s with
      | EmptyString => None
      | String _ s' => search_digits_ms s'
      end
  end.

(** A match of [\d+ms] at position [i] of [s] with [n] digits:
    [s = pre ++ ds ++ "ms" ++ suf] with [pre] of length [i] and [ds] a run of
    [n >= 1] decimal digits. *)
Definition digits_ms_at (s : string) (i : nat) (ds : string) : Prop :=
  exists pre suf : string,
    s = pre ++ ds ++ "ms" ++ suf /\ String.length pre = i /\
    ds <> EmptyString /\ all_digits ds = true.

End Re.

(** ** Python values, exceptions and results *)

(** What [json.loads] returns: [None], booleans, integers, floats, strings,
    lists, and dictionaries (insertion-ordered, keyed by strings). *)
Inductive pyval : Type :=
| VNone
| VBool (b : bool)
| VInt (z : Z)
| VFloat (f : spec_float)
| VStr (s : string)
| VList (l : list pyval)
| VDict (d : list (string * pyval)).

(** Instances of [Exception].  [LibraryError] stands for what the libraries
    and services raise ([binascii.Error], [gzip.BadGzipFile],
    [json.JSONDecodeError], botocore's errors, ...). *)
Inductive exn : Type :=
| KeyError (key : string)
| TypeError (msg : string)
| AttributeError (msg : string)
| ZeroDivisionError (msg : string)
| ValueError (msg : string)
| OverflowError (msg : string)
| LibraryError (cls msg : string).

Inductive result (A : Type) : Type :=
| Ok (a : A)
| Raise (e : exn).
Arguments Ok {A} a.
Arguments Raise {A} e.

(** A number handed to the metrics service: an [int] or a [float]. *)
Inductive pynumber : Type :=
| PInt (z : Z)
| PFloat (f : spec_float).

(** The rational a finite float denotes, [(-1)^s * m * 2^e]; the zeros
    denote 0.  (Infinities and NaN denote no rational; they are given 0.) *)
Definition Q_of_float (f : spec_float) : Q :=
  match f with
  | S754_finite s m e =>
      ((if s then inject_Z (-1) else inject_Z 1) * inject_Z (Zpos m) * (inject_Z 2) ^ e)%Q
  | _ => inject_Z 0
  end.

(** The rational a [pynumber] denotes. *)
Definition Q_of_pynumber (v : pynumber) : Q :=
  match v with
  | PInt z => inject_Z z
  | PFloat f => Q_of_float f
  end.

Module Py.
Import PyStr.

Definition type_name (v : pyval) : string :=
  match v with
  | VNone => "NoneType"
  | VBool _ => "bool"
  | VInt _ => "int"
  | VFloat _ => "float"
  | VStr _ => "str"
  | VList _ => "list"
  | VDict _ => "dict"
  end.

Definition quoted (s : string) : string := "'" ++ s ++ "'".

(** [str(e)] *)
Definition str_exn (e : exn) : string :=
  match e with
  | KeyError key => quoted key
  | TypeError msg => msg
  | AttributeError msg => msg
  | ZeroDivisionError msg => msg
  | ValueError msg => msg
  | OverflowError msg => msg
  | LibraryError _ msg => msg
  end.

Fixpoint dict_lookup (d : list (string * pyval)) (k : string) : option pyval :=
  match d with
  | [] => None
  | (k', v) :: d' => if String.eqb k' k then Some v else dict_lookup d' k
  end.

(** [v[k]] for a string key [k]. *)
Definition getitem (v : pyval) (k : string) : result pyval :=
  match v with
  | VDict d =>
      match dict_lookup d k with
      | Some x => Ok x
      | None => Raise (KeyError k)
      end
  | VList _ => Raise (TypeError "list indices must be integers or slices, not str")
  | VStr _ => Raise (TypeError "string indices must be integers, not 'str'")
  | _ => Raise (TypeError (quoted (type_name v) ++ " object is not subscriptable"))
  end.

Definition is_str (k : string) (x : pyval) : bool :=
  match x with
  | VStr s => String.eqb s k
  | _ => false
  end.

(** [k in v] for a string [k]: substring of a string, element of a list,
    key of a dictionary. *)
Definition contains (k : string) (v : pyval) : result bool :=
  match v with
  | VStr s => Ok (PyStr.contains k s)
  | VList l => Ok (existsb (is_str k) l)
  | VDict d => Ok (existsb (fun kv => String.eqb (fst kv) k) d)
  | _ => Raise (TypeError ("argument of type " ++ quoted (type_name v) ++ " is not iterable"))
  end.

Fixpoint chars (s : string) : list pyval :=
  match s with
  | EmptyString => []
  | String c s' => VStr (String c EmptyString) :: chars s'
  end.

(** The items [for x in v] visits. *)
Definition iter (v : pyval) : result (list pyval) :=
  match v with
  | VList l => Ok l
  | VStr s => Ok (chars s)
  | VDict d => Ok (map (fun kv => VStr (fst kv)) d)
  | _ => Raise (TypeError (quoted (type_name v) ++ " object is not iterable"))
  end.

(** [v.lower()] *)
Definition lower (v : pyval) : result string :=
  match v with
  | VStr s => Ok (PyStr.lower s)
  | _ => Raise (AttributeError (quoted (type_name v) ++ " object has no attribute 'lower'"))
  end.

(** [v.get(k)] *)
Definition get (v : pyval) (k : string) : result pyval :=
  match v with
  | VDict d =>
      match dict_lookup d k with
      | Some x => Ok x
      | None => Ok VNone
      end
  | _ => Raise (AttributeError (quoted (type_name v) ++ " object has no attribute 'get'"))
  end.

(** [sys.get_int_max_str_digits()]: the interpreter's default. *)
Definition int_max_str_digits : nat := 4300.

(** [str(n)] for a natural number. *)
Definition decimal (n : nat) : string := NilEmpty.string_of_uint (Nat.to_uint n).

(** [int(s)] for a non-empty string [s] of decimal digits: its base-10
    value, unless [s] has more digits than the limit allows. *)
Definition int_of_str (s : string) : result Z :=
  if (int_max_str_digits <? String.length s)%nat
  then Raise (ValueError ("Exceeds the limit (" ++ decimal int_max_str_digits
                          ++ " digits) for integer string conversion: value has "
                          ++ decimal (String.length s)
                          ++ " digits; use sys.set_int_max_str_digits() to increase the limit"))
  else Ok (int_of_digits s).

(** An int as a binary number with exponent 0: exact, whatever its size. *)
Definition exact_of_int (z : Z) : spec_float :=
  match z with
  | Z0 => S754_zero false
  | Zpos p => S754_finite false p 0
  | Zneg p => S754_finite true p 0
  end.

(** [a / b] on two ints: the quotient of the two integers, rounded once to
    binary64 (to nearest, ties to even). *)
Definition true_div (a b : Z) : result spec_float :=
  if b =? 0 then Raise (ZeroDivisionError "division by zero")
  else
    match SFdiv 53 1024 (exact_of_int a) (exact_of_int b) with
    | S754_infinity _ =>
        Raise (OverflowError "integer division result too large for a float")
    | q => Ok q
    end.

End Py.

(** ** The data model of the specification *)

(** LogRecord: [{ timestamp: integer, message: string }]. *)
Record LogRecord : Type := { timestamp : Z; message : string }.

(** A LogRecord as [json.loads] delivers it. *)
Definition event_of_record (r : LogRecord) : pyval :=
  VDict [("timestamp", VInt (timestamp r)); ("message", VStr (message r))].

(** An entry of [performance_metrics]. *)
Record Sample : Type :=
  { sample_timestamp : pyval; sample_duration : Z; sample_message : pyval }.

(** An entry of [suspicious_activities]. *)
Record Activity : Type :=
  { activity_timestamp : pyval; activity_message : pyval }.

(** An entry of [audit_events]. *)
Record AuditEvent : Type :=
  { audit_timestamp : pyval;
    userId : pyval;
    action : pyval;
    resourceType : pyval;
    resourceId : pyval;
    outcome : pyval }.

Definition activity_json (a : Activity) : pyval :=
  VDict [("timestamp", activity_timestamp a); ("message", activity_message a)].

Definition audit_json (a : AuditEvent) : pyval :=
  VDict [("timestamp", audit_timestamp a);
         ("userId", userId a);
         ("action", action a);
         ("resourceType", resourceType a);
         ("resourceId", resourceId a);
         ("outcome", outcome a)].

(** The labels of the Category Classifier. *)
Inductive Category : Type := Application | Security | Audit | Unknown.

(** ** The world outside the handler *)

Record datetime : Type :=
  { year : Z; month : Z; day : Z; hour : Z; minute : Z; second : Z; microsecond : Z }.

(** Requests to the external services, with the keyword arguments of the
    boto3 calls. *)
Inductive SinkCall : Type :=
| PutMetricData (Namespace MetricName : string) (Value : pynumber) (Unit : string)
                (Timestamp : datetime)
| Publish (TopicArn Message Subject : string)
| PutObject (Bucket Key Body ContentType : string).

(** The library functions the handler calls. *)
Class PyRuntime : Type :=
  { b64decode : pyval -> result (list Byte.byte);
    gzip_decompress : list Byte.byte -> result (list Byte.byte);
    json_loads_bytes : list Byte.byte -> result pyval;
    json_loads_str : string -> result pyval;
    json_dumps : pyval -> string;
    (** [format(v)] inside an f-string, for a value that is not a string *)
    format_other : pyval -> string;
    (** [d.strftime('%Y/%m/%d')] *)
    strftime_Ymd : datetime -> string;
    isoformat : datetime -> string }.

(** What an invocation cannot change: the process environment, the clock
    (its n-th reading) and the services (whether a request raises, given the
    requests sent before it). *)
Record World : Type :=
  { environ : list (string * string);
    utcnow : nat -> datetime;
    sink_fault : list SinkCall -> SinkCall -> option exn }.

(** What an invocation changes: the clock readings taken, the requests
    sent, and the lines printed. *)
Record State : Type :=
  { ticks : nat; calls : list SinkCall; stdout : list string }.

(** The handler's return value. *)
Record Response : Type := { statusCode : Z; body : string }.

(** ** The monad of the handler: state, and exceptions that keep the state *)

Definition M (A : Type) : Type := State -> result A * State.

Definition ret {A : Type} (a : A) : M A := fun st => (Ok a, st).

Definition bind {A B : Type} (c : M A) (k : A -> M B) : M B :=
  fun st =>
    match c st with
    | (Ok a, st') => k a st'
    | (Raise e, st') => (Raise e, st')
    end.

(** A pure computation that may raise. *)
Definition lift {A : Type} (r : result A) : M A := fun st => (r, st).

(** [try: c  except: h] *)
Definition try_except {A : Type} (c : M A) (h : exn -> M A) : M A :=
  fun st =>
    match c st with
    | (Ok a, st') => (Ok a, st')
    | (Raise e, st') => h e st'
    end.

(** [for x in l: s = body(x, s)] *)
Fixpoint for_each {A S : Type} (body : A -> S -> M S) (l : list A) (s : S) : M S :=
  match l with
  | [] => ret s
  | x :: l' => bind (body x s) (for_each body l')
  end.

(** [any(g)] for a generator [g] of tests, each of which may raise: the
    tests run in order and stop at the first that holds. *)
Fixpoint py_any (tests : list (result bool)) : result bool :=
  match tests with
  | [] => Ok false
  | t :: tests' =>
      match t with
      | Ok true => Ok true
      | Ok false => py_any tests'
      | Raise e => Raise e
      end
  end.

(** [c] returns the same result from every state and changes none. *)
Definition stateless {A : Type} (c : M A) : Prop :=
  exists r : result A, forall st : State, c st = (r, st).

Declare Scope py_scope.
Delimit Scope py_scope with py.
Notation "x <- c ;; k" := (bind c (fun x => k))
  (at level 61, c at next level, right associativity) : py_scope.
Notation "c ;; k" := (bind c (fun _ => k))
  (at level 61, right associativity) : py_scope.
Local Open Scope py_scope.

Section Pipeline.
Context {RT : PyRuntime} (W : World).

(** *** Sink adapter *)

(** [datetime.utcnow()] *)
Definition now : M datetime :=
  fun st =>
    (Ok (utcnow W (ticks st)),
     {| ticks := S (ticks st); calls := calls st; stdout := stdout st |}).

(** [os.environ[k]] *)
Definition getenv (k : string) : M string :=
  lift (match find (fun kv => String.eqb (fst kv) k) (environ W) with
        | Some kv => Ok (snd kv)
        | None => Raise (KeyError k)
        end).

(** [print(line)] *)
Definition print (line : string) : M unit :=
  fun st =>
    (Ok tt, {| ticks := ticks st; calls := calls st; stdout := (stdout st ++ [line])%list |}).

(** A request to a service (the client is created, the operation is
    called): it is recorded, and the service answers or raises. *)
Definition invoke (c : SinkCall) : M unit :=
  fun st =>
    let st' := {| ticks := ticks st; calls := (calls st ++ [c])%list; stdout := stdout st |} in
    match sink_fault W (calls st) c with
    | Some e => (Raise e, st')
    | None => (Ok tt, st')
    end.

Definition send_custom_metric (metric_name : string) (value : pynumber)
  (namespace : string) : M unit :=
  ts <- now ;;
  invoke (PutMetricData namespace metric_name value "Count" ts).

Definition send_security_alert (activities : list Activity) : M unit :=
  ts <- now ;;
  let message :=
    VDict [("alert_type", VStr "security");
           ("activities", VList (map activity_json activities));
           ("timestamp", VStr (isoformat ts))] in
  topic <- getenv "SECURITY_ALERT_TOPIC_ARN" ;;
  invoke (Publish topic (json_dumps message) "FHIR Bridge Security Alert").

Definition format_value (v : pyval) : string :=
  match v with
  | VStr s => s
  | _ => format_other v
  end.

Definition store_processed_logs (log_data : pyval) : M unit :=
  bucket <- getenv "LOG_ANALYSIS_BUCKET" ;;
  ts <- now ;;
  log_stream <- lift (Py.getitem log_data "logStream") ;;
  let key := "processed/" ++ strftime_Ymd ts ++ "/" ++ format_value log_stream ++ ".json" in
  invoke (PutObject bucket key (json_dumps log_data) "application/json").

Definition store_audit_summary (audit_events : list AuditEvent) : M unit :=
  bucket <- getenv "LOG_ANALYSIS_BUCKET" ;;
  ts <- now ;;
  let key := "audit-summary/" ++ strftime_Ymd ts ++ "/summary.json" in
  date <- now ;;
  let summary :=
    VDict [("date", VStr (isoformat date));
           ("total_events", VInt (Z.of_nat (length audit_events)));
           ("events", VList (map audit_json audit_events))] in
  invoke (PutObject bucket key (json_dumps summary) "application/json").

(** *** Extractors *)

(** [re.search(r'(\d+)ms', message)]: group 1 of the match, if there is
    one. *)
Definition re_search_digits_ms (message : pyval) : result (option string) :=
  match message with
  | VStr s => Ok (Re.search_digits_ms s)
  | _ => Raise (TypeError ("expected string or bytes-like object, got "
                           ++ Py.quoted (Py.type_name message)))
  end.

(** [int(match.group(1)) if match else 0] *)
Definition extract_duration (message : pyval) : result Z :=
  match re_search_digits_ms message with
  | Raise e => Raise e
  | Ok (Some g) => Py.int_of_str g
  | Ok None => Ok 0
  end.

(** The body of the loop of [process_application_logs], on the locals
    [(error_count, performance_metrics)]. *)
Definition application_step (event : pyval) (acc : Z * list Sample)
  : M (Z * list Sample) :=
  let '(error_count, performance_metrics) := acc in
  message <- lift (Py.getitem event "message") ;;
  is_error <- lift (Py.contains "ERROR" message) ;;
  let error_count := if is_error : bool then error_count + 1 else error_count in
  is_request <- lift (Py.contains "Request completed" message) ;;
  if is_request : bool then
    try_except
      (duration <- lift (extract_duration message) ;;
       ts <- lift (Py.getitem event "timestamp") ;;
       ret (error_count,
            (performance_metrics ++
               [{| sample_timestamp := ts;
                   sample_duration := duration;
                   sample_message := message |}])%list))
      (fun _ => ret (error_count, performance_metrics))
  else ret (error_count, performance_metrics).

(** [sum(m['duration'] for m in performance_metrics)] *)
Definition sum_durations (performance_metrics : list Sample) : Z :=
  fold_left (fun acc m => acc + sample_duration m) performance_metrics 0.

Definition process_application_logs (log_events : pyval) : M unit :=
  events <- lift (Py.iter log_events) ;;
  acc <- for_each application_step events (0, []) ;;
  let '(error_count, performance_metrics) := acc in
  (if error_count >? 0
   then send_custom_metric "ApplicationErrors" (PInt error_count) "FHIRBridge/Application"
   else ret tt) ;;
  match performance_metrics with
  | [] => ret tt
  | _ :: _ =>
      avg_duration <- lift (Py.true_div (sum_durations performance_metrics)
                                        (Z.of_nat (length performance_metrics))) ;;
      send_custom_metric "AverageResponseTime" (PFloat avg_duration)
        "FHIRBridge/Performance"
  end.

(** The body of the loop of [process_security_logs], on the locals
    [(failed_auth_count, suspicious_activities)]. *)
Definition security_step (event : pyval) (acc : Z * list Activity)
  : M (Z * list Activity) :=
  let '(failed_auth_count, suspicious_activities) := acc in
  message <- lift (Py.getitem event "message") ;;
  lowered <- lift (Py.lower message) ;;
  let failed_auth_count :=
    if PyStr.contains "authentication failed" lowered
    then failed_auth_count + 1 else failed_auth_count in
  suspicious <- lift (py_any (map (fun keyword =>
                                     match Py.lower message with
                                     | Ok l => Ok (PyStr.contains keyword l)
                                     | Raise e => Raise e
                                     end)
                                  ["unauthorized"; "forbidden"; "blocked"])) ;;
  if suspicious : bool then
    ts <- lift (Py.getitem event "timestamp") ;;
    ret (failed_auth_count,
         (suspicious_activities ++
            [{| activity_timestamp := ts; activity_message := message |}])%list)
  else ret (failed_auth_count, suspicious_activities).

Definition process_security_logs (log_events : pyval) : M unit :=
  events <- lift (Py.iter log_events) ;;
  acc <- for_each security_step events (0, []) ;;
  let '(failed_auth_count, suspicious_activities) := acc in
  (if failed_auth_count >? 0
   then send_custom_metric "FailedAuthentications" (PInt failed_auth_count)
          "FHIRBridge/Security"
   else ret tt) ;;
  match suspicious_activities with
  | [] => ret tt
  | _ :: _ => send_security_alert suspicious_activities
  end.

(** [json.loads(v)] for a value [v] that is not [bytes]. *)
Definition json_loads (v : pyval) : result pyval :=
  match v with
  | VStr s => json_loads_str s
  | _ => Raise (TypeError ("the JSON object must be str, bytes or bytearray, not "
                           ++ Py.type_name v))
  end.

(** The body of the loop of [process_audit_logs], on the local
    [audit_events]. *)
Definition audit_step (event : pyval) (audit_events : list AuditEvent)
  : M (list AuditEvent) :=
  try_except
    (message <- lift (Py.getitem event "message") ;;
     audit_data <- lift (json_loads message) ;;
     ts <- lift (Py.getitem event "timestamp") ;;
     user_id <- lift (Py.get audit_data "userId") ;;
     act <- lift (Py.get audit_data "action") ;;
     resource_type <- lift (Py.get audit_data "resourceType") ;;
     resource_id <- lift (Py.get audit_data "resourceId") ;;
     out <- lift (Py.get audit_data "outcome") ;;
     ret (audit_events ++
            [{| audit_timestamp := ts;
                userId := user_id;
                action := act;
                resourceType := resource_type;
                resourceId := resource_id;
                outcome := out |}])%list)
    (fun _ => ret audit_events).

Definition process_audit_logs (log_events : pyval) : M unit :=
  events <- lift (Py.iter log_events) ;;
  audit_events <- for_each audit_step events [] ;;
  match audit_events with
  | [] => ret tt
  | _ :: _ => store_audit_summary audit_events
  end.

(** *** Handler *)

(** Envelope decoder: [event['awslogs']['data']], base64, gzip, JSON. *)
Definition decode (event : pyval) : result pyval :=
  match Py.getitem event "awslogs" with
  | Raise e => Raise e
  | Ok awslogs =>
      match Py.getitem awslogs "data" with
      | Raise e => Raise e
      | Ok data =>
          match b64decode data with
          | Raise e => Raise e
          | Ok compressed_payload =>
              match gzip_decompress compressed_payload with
              | Raise e => Raise e
              | Ok uncompressed_payload => json_loads_bytes uncompressed_payload
              end
          end
      end
  end.

(** The [if]/[elif] chain on the log group. *)
Definition dispatch (log_group log_events : pyval) : M unit :=
  is_application <- lift (Py.contains "application" log_group) ;;
  if is_application : bool then process_application_logs log_events
  else
    is_security <- lift (Py.contains "security" log_group) ;;
    if is_security : bool then process_security_logs log_events
    else
      is_audit <- lift (Py.contains "audit" log_group) ;;
      if is_audit : bool then process_audit_logs log_events
      else ret tt.

Definition success_response : Response :=
  {| statusCode := 200;
     body := json_dumps (VStr "Log processing completed successfully") |}.

Definition error_response (e : exn) : Response :=
  {| statusCode := 500;
     body := json_dumps (VStr ("Error processing logs: " ++ Py.str_exn e)) |}.

(** The body of the handler's [try]. *)
Definition pipeline (event : pyval) : M Response :=
  log_data <- lift (decode event) ;;
  log_group <- lift (Py.getitem log_data "logGroup") ;;
  log_stream <- lift (Py.getitem log_data "logStream") ;;
  log_events <- lift (Py.getitem log_data "logEvents") ;;
  dispatch log_group log_events ;;
  store_processed_logs log_data ;;
  ret success_response.

(** [handler(event, context)]; the context is not used. *)
Definition handler (event : pyval) : M Response :=
  try_except (pipeline event)
    (fun e =>
       print ("Error processing logs: " ++ Py.str_exn e) ;;
       ret (error_response e)).

End Pipeline.

(** ** The vocabulary of the specification *)

(** Category Classifier (specification, section 4.2): the substrings are
    tested in the order "application", "security", "audit"; the first that the
    log group contains gives the label. *)
Definition classify (log_group : string) : Category :=
  if PyStr.contains "application" log_group then Application
  else if PyStr.contains "security" log_group then Security
  else if PyStr.contains "audit" log_group then Audit
  else Unknown.

(** The three extractors. *)
Inductive Extractor : Type :=
| ApplicationExtractor
| SecurityExtractor
| AuditExtractor.

(** The extractor a label selects: none for [Unknown]. *)
Definition extractor_of (c : Category) : option Extractor :=
  match c with
  | Application => Some ApplicationExtractor
  | Security => Some SecurityExtractor
  | Audit => Some AuditExtractor
  | Unknown => None
  end.

Definition run_extractor {RT : PyRuntime} (W : World) (x : Extractor)
  : pyval -> M unit :=
  match x with
  | ApplicationExtractor => process_application_logs W
  | SecurityExtractor => process_security_logs W
  | AuditExtractor => process_audit_logs W
  end.

(** [ds] is the leftmost run of digits followed by "ms" in [s]. *)
Definition leftmost_digits_ms (s ds : string) : Prop :=
  exists i : nat,
    Re.digits_ms_at s i ds /\
    forall (j : nat) (ds' : string), (j < i)%nat -> ~ Re.digits_ms_at s j ds'.

(** [s] has no digit followed by "ms". *)
Definition no_digits_ms (s : string) : Prop :=
  forall (i : nat) (ds : string), ~ Re.digits_ms_at s i ds.

(** The duration the specification reads off a message (section 4.3). *)
Definition duration_spec (msg : string) (d : Z) : Prop :=
  (forall ds : string, leftmost_digits_ms msg ds -> d = PyStr.int_of_digits ds) /\
  (no_digits_ms msg -> d = 0).

(** The sample of a record whose message has "Request completed". *)
Definition sample_spec (r : LogRecord) (s : Sample) : Prop :=
  sample_timestamp s = VInt (timestamp r) /\
  sample_message s = VStr (message r) /\
  duration_spec (message r) (sample_duration s).

(** [ds], the leftmost run of digits followed by "ms" in [s], has more
    digits than [int] converts. *)
Definition leftmost_digits_ms_over_limit (s : string) : Prop :=
  exists ds : string,
    leftmost_digits_ms s ds /\ (Py.int_max_str_digits < String.length ds)%nat.

(** What the loops compute on a LogRecord. *)
Definition duration_of (msg : string) : Z :=
  match Re.search_digits_ms msg with
  | Some g => PyStr.int_of_digits g
  | None => 0
  end.

(** The run that the search finds in [msg] is too long for [int]. *)
Definition over_int_limit (msg : string) : bool :=
  match Re.search_digits_ms msg with
  | Some g => (Py.int_max_str_digits <? String.length g)%nat
  | None => false
  end.

(** The record gives a sample: its message has "Request completed" and the
    conversion of the duration does not raise. *)
Definition yields_sample (r : LogRecord) : bool :=
  PyStr.contains "Request completed" (message r) && negb (over_int_limit (message r)).

Definition record_samples (r : LogRecord) : list Sample :=
  if yields_sample r
  then [{| sample_timestamp := VInt (timestamp r);
           sample_duration := duration_of (message r);
           sample_message := VStr (message r) |}]
  else [].

Definition has_error (r : LogRecord) : bool := PyStr.contains "ERROR" (message r).

Definition has_failed_auth (r : LogRecord) : bool :=
  PyStr.contains "authentication failed" (PyStr.lower (message r)).

Definition is_suspicious (r : LogRecord) : bool :=
  existsb (fun keyword => PyStr.contains keyword (PyStr.lower (message r)))
          ["unauthorized"; "forbidden"; "blocked"].

Definition record_activities (r : LogRecord) : list Activity :=
  if is_suspicious r
  then [{| activity_timestamp := VInt (timestamp r);
           activity_message := VStr (message r) |}]
  else [].

(** The number of items of [l] that satisfy [p]. *)
Definition count_if {A : Type} (p : A -> bool) (l : list A) : Z :=
  Z.of_nat (length (filter p l)).

(** The unweighted arithmetic mean: sum divided by count. *)
Definition mean (l : list Z) : Q :=
  (fold_right Qplus 0 (map inject_Z l) / inject_Z (Z.of_nat (length l)))%Q.

(** The mean as binary64 arithmetic delivers it: the sum divided by the
    count, rounded once to the nearest float (ties to even); an infinity
    when the rounded quotient is beyond the largest float. *)
Definition rounded_mean (l : list Z) : spec_float :=
  SFdiv 53 1024 (Py.exact_of_int (fold_right Z.add 0 l))
                (Py.exact_of_int (Z.of_nat (length l))).

(** A field of a parsed audit message, null when absent. *)
Definition field_or_null (d : list (string * pyval)) (k : string) : pyval :=
  match Py.dict_lookup d k with
  | Some v => v
  | None => VNone
  end.

(** The audit event of a record whose message parsed to the object [d]. *)
Definition audit_event_of (r : LogRecord) (d : list (string * pyval)) : AuditEvent :=
  {| audit_timestamp := VInt (timestamp r);
     userId := field_or_null d "userId";
     action := field_or_null d "action";
     resourceType := field_or_null d "resourceType";
     resourceId := field_or_null d "resourceId";
     outcome := field_or_null d "outcome" |}.

Definition record_audit_events {RT : PyRuntime} (r : LogRecord) : list AuditEvent :=
  match json_loads_str (message r) with
  | Ok (VDict d) => [audit_event_of r d]
  | _ => []
  end.

Definition is_metric (name : string) (c : SinkCall) : bool :=
  match c with
  | PutMetricData _ metric_name _ _ _ => String.eqb metric_name name
  | _ => false
  end.

(** The request [send_custom_metric] sends from state [st]. *)
Definition metric_call (W : World) (namespace metric_name : string)
  (value : pynumber) (st : State) : SinkCall :=
  PutMetricData namespace metric_name value "Count" (utcnow W (ticks st)).

(** The request for the error count, sent from state [st]. *)
Definition errors_call (W : World) (n : Z) (st : State) : SinkCall :=
  metric_call W "FHIRBridge/Application" "ApplicationErrors" (PInt n) st.

(** The request for the average duration [avg]; the clock has been read
    once more when the error count was sent first. *)
Definition average_call (W : World) (n : Z) (avg : spec_float) (st : State)
  : SinkCall :=
  PutMetricData "FHIRBridge/Performance" "AverageResponseTime" (PFloat avg) "Count"
    (utcnow W (if n >? 0 then S (ticks st) else ticks st)).

(** [sum(...) / len(performance_metrics)] on the local [samples]. *)
Definition average_duration (samples : list Sample) : result spec_float :=
  Py.true_div (sum_durations samples) (Z.of_nat (length samples)).

(** The requests of [process_application_logs] on the locals [n] and
    [samples], from state [st]: the error count when it is positive, then,
    unless that request raised, the average when there are samples and the
    division returns a float. *)
Definition application_calls (W : World) (n : Z) (samples : list Sample)
  (st : State) : list SinkCall :=
  ((if n >? 0 then [errors_call W n st] else []) ++
   (if (n >? 0) &&
       match sink_fault W (calls st) (errors_call W n st) with
       | Some _ => true
       | None => false
       end
    then []
    else match samples with
         | [] => []
         | _ :: _ =>
             match average_duration samples with
             | Ok avg => [average_call W n avg st]
             | Raise _ => []
             end
         end))%list.

(** Every step of the handler's [try] block completes without raising, and
    leaves the state [st']. *)
Definition completes {RT : PyRuntime} (W : World) (event : pyval) (st st' : State)
  : Prop :=
  exists (log_data log_group log_stream log_events : pyval) (st1 : State),
    decode event = Ok log_data /\
    Py.getitem log_data "logGroup" = Ok log_group /\
    Py.getitem log_data "logStream" = Ok log_stream /\
    Py.getitem log_data "logEvents" = Ok log_events /\
    dispatch W log_group log_events st = (Ok tt, st1) /\
    store_processed_logs W log_data st1 = (Ok tt, st').

(** Some step of the handler's [try] block raises [e] and leaves the state
    [st']: the decoder, the projection of the batch, the dispatch (an
    extractor or one of its sink calls), or the raw persistence. *)
Definition step_raises {RT : PyRuntime} (W : World) (event : pyval) (st : State)
  (e : exn) (st' : State) : Prop :=
  (decode event = Raise e /\ st' = st) \/
  (exists log_data : pyval,
     decode event = Ok log_data /\ st' = st /\
     (Py.getitem log_data "logGroup" = Raise e \/
      (exists lg, Py.getitem log_data "logGroup" = Ok lg /\
                  Py.getitem log_data "logStream" = Raise e) \/
      (exists lg ls, Py.getitem log_data "logGroup" = Ok lg /\
                     Py.getitem log_data "logStream" = Ok ls /\
                     Py.getitem log_data "logEvents" = Raise e))) \/
  (exists log_data log_group log_stream log_events : pyval,
     decode event = Ok log_data /\
     Py.getitem log_data "logGroup" = Ok log_group /\
     Py.getitem log_data "logStream" = Ok log_stream /\
     Py.getitem log_data "logEvents" = Ok log_events /\
     (dispatch W log_group log_events st = (Raise e, st') \/
      exists st1 : State,
        dispatch W log_group log_events st = (Ok tt, st1) /\
        store_processed_logs W log_data st1 = (Raise e, st'))).

(** LogBatch: [{ logGroup, logStream, records }], and the decoded payload it
    is projected from. *)
Record LogBatch : Type :=
  { logGroup : string; logStream : string; records : list LogRecord }.

Definition batch_json (b : LogBatch) : pyval :=
  VDict [("logGroup", VStr (logGroup b));
         ("logStream", VStr (logStream b));
         ("logEvents", VList (map event_of_record (records b)))].

(** ** Vocabulary for the effects of the sink adapter *)

(** [os.environ.get(k)]: the value of a variable, if it is set. *)
Definition env_lookup (W : World) (k : string) : option string :=
  option_map snd (find (fun kv => String.eqb (fst kv) k) (environ W)).

(** From [st] to [st']: [reads] more clock readings, the requests [sent]
    added at the end, nothing printed. *)
Definition advances (st st' : State) (reads : nat) (sent : list SinkCall) : Prop :=
  ticks st' = (ticks st + reads)%nat /\
  calls st' = (calls st ++ sent)%list /\
  stdout st' = stdout st.

(** [c] reads the clock at most [max_reads] times, sends at most [max_sent]
    requests and prints nothing, from every state. *)
Definition effect_within {A : Type} (c : M A) (max_reads max_sent : nat) : Prop :=
  forall st : State,
    exists (reads : nat) (sent : list SinkCall),
      advances st (snd (c st)) reads sent /\
      (reads <= max_reads)%nat /\ (length sent <= max_sent)%nat.

Definition is_publish (c : SinkCall) : bool :=
  match c with
  | Publish _ _ _ => true
  | _ => false
  end.

(** The document [send_security_alert] serialises. *)
Definition alert_message {RT : PyRuntime} (activities : list Activity) (ts : datetime)
  : pyval :=
  VDict [("alert_type", VStr "security");
         ("activities", VList (map activity_json activities));
         ("timestamp", VStr (isoformat ts))].

(** The document [store_audit_summary] serialises. *)
Definition audit_summary {RT : PyRuntime} (audit_events : list AuditEvent)
  (date : datetime) : pyval :=
  VDict [("date", VStr (isoformat date));
         ("total_events", VInt (Z.of_nat (length audit_events)));
         ("events", VList (map audit_json audit_events))].

(** The state after one more clock reading. *)
Definition ticked (st : State) : State :=
  {| ticks := S (ticks st); calls := calls st; stdout := stdout st |}.

(** The state after the request [c] was sent. *)
Definition sent_from (st : State) (c : SinkCall) : State :=
  {| ticks := ticks st; calls := (calls st ++ [c])%list; stdout := stdout st |}.

(** The state in which the application extractor computes the average:
    the error count was sent when it is positive. *)
Definition after_errors (W : World) (n : Z) (st : State) : State :=
  if n >? 0 then sent_from (ticked st) (errors_call W n st) else st.

(** What the service answers to [c] sent from [st]. *)
Definition answer (W : World) (st : State) (c : SinkCall) : result unit :=
  match sink_fault W (calls st) c with
  | Some e => Raise e
  | None => Ok tt
  end.

(** The state after the handler's [except] branch printed its line. *)
Definition printed (st : State) (e : exn) : State :=
  {| ticks := ticks st;
     calls := calls st;
     stdout := (stdout st ++ [("Error processing logs: " ++ Py.str_exn e)%string])%list |}.

(** ** A runtime and a world to run the handler in

    A reader for the JSON subset without escapes, fractions and exponents,
    a writer for values without floats, identity stand-ins for base64 and
    gzip, a clock that advances one second per reading, and services that
    accept every request (or refuse every [PutObject] in [world_s3_down] and
    every [PutMetricData] in [world_metrics_down]). *)

Module Fixture.

Definition dquote : ascii := ascii_of_nat 34.
Definition backslash : ascii := ascii_of_nat 92.

Definition is_space (c : ascii) : bool :=
  let n := nat_of_ascii c in
  ((n =? 32) || (n =? 9) || (n =? 10) || (n =? 13))%nat.

Fixpoint skip_space (s : string) : string :=
  match s with
  | EmptyString => EmptyString
  | String c s' => if is_space c then skip_space s' else s
  end.

Fixpoint skip (n : nat) (s : string) : string :=
  match n, s with
  | S n', String _ s' => skip n' s'
  | _, _ => s
  end.

(** The characters up to the closing quote, and what follows it. *)
Fixpoint read_literal (s : string) : option (string * string) :=
  match s with
  | EmptyString => None
  | String c s' =>
      if Ascii.eqb c dquote then Some (EmptyString, s')
      else if Ascii.eqb c backslash then None
      else match read_literal s' with
           | Some (t, r) => Some (String c t, r)
           | None => None
           end
  end.

Fixpoint read_digits (s : string) : string * string :=
  match s with
  | EmptyString => (EmptyString, EmptyString)
  | String c s' =>
      if PyStr.is_digit c
      then let (d, r) := read_digits s' in (String c d, r)
      else (EmptyString, s)
  end.

(** An integer literal: digits with no leading zero, no fraction and no
    exponent. *)
Definition read_int (s : string) : option (Z * string) :=
  match read_digits s with
  | (EmptyString, _) => None
  | (String "0" (String _ _), _) => None
  | (d, r) =>
      if String.prefix "." r || String.prefix "e" r || String.prefix "E" r
      then None
      else Some (PyStr.int_of_digits d, r)
  end.

(** A later member replaces an earlier one with the same key. *)
Fixpoint dict_set (d : list (string * pyval)) (k : string) (v : pyval)
  : list (string * pyval) :=
  match d with
  | [] => [(k, v)]
  | (k', v') :: d' =>
      if String.eqb k' k then (k, v) :: d' else (k', v') :: dict_set d' k v
  end.

Fixpoint read_value (fuel : nat) (s : string) : option (pyval * string) :=
  match fuel with
  | O => None
  | S fuel' =>
      match skip_space s with
      | EmptyString => None
      | String c s' as t =>
          if Ascii.eqb c dquote then
            match read_literal s' with
            | Some (lit, r) => Some (VStr lit, r)
            | None => None
            end
          else if Ascii.eqb c "[" then
            match skip_space s' with
            | String "]" r => Some (VList [], r)
            | _ => read_items fuel' s' []
            end
          else if Ascii.eqb c "{" then
            match skip_space s' with
            | String "}" r => Some (VDict [], r)
            | _ => read_members fuel' s' []
            end
          else if Ascii.eqb c "-" then
            match read_int s' with
            | Some (z, r) => Some (VInt (- z), r)
            | None => None
            end
          else if PyStr.is_digit c then
            match read_int t with
            | Some (z, r) => Some (VInt z, r)
            | None => None
            end
          else if String.prefix "null" t then Some (VNone, skip 4 t)
          else if String.prefix "true" t then Some (VBool true, skip 4 t)
          else if String.prefix "false" t then Some (VBool false, skip 5 t)
          else None
      end
  end
with read_items (fuel : nat) (s : string) (acc : list pyval) : option (pyval * string) :=
  match fuel with
  | O => None
  | S fuel' =>
      match read_value fuel' s with
      | Some (v, r) =>
          match skip_space r with
          | String "," r' => read_items fuel' r' (acc ++ [v])%list
          | String "]" r' => Some (VList (acc ++ [v])%list, r')
          | _ => None
          end
      | None => None
      end
  end
with read_members (fuel : nat) (s : string) (acc : list (string * pyval))
  : option (pyval * string) :=
  match fuel with
  | O => None
  | S fuel' =>
      match skip_space s with
      | String c s' =>
          if Ascii.eqb c dquote then
            match read_literal s' with
            | Some (k, r) =>
                match skip_space r with
                | String ":" r' =>
                    match read_value fuel' r' with
                    | Some (v, r'') =>
                        match skip_space r'' with
                        | String "," r3 => read_members fuel' r3 (dict_set acc k v)
                        | String "}" r3 => Some (VDict (dict_set acc k v), r3)
                        | _ => None
                        end
                    | None => None
                    end
                | _ => None
                end
            | None => None
            end
          else None
      | EmptyString => None
      end
  end.

Definition loads (s : string) : result pyval :=
  match read_value (2 * String.length s + 2) s with
  | Some (v, r) =>
      match skip_space r with
      | EmptyString => Ok v
      | _ => Raise (LibraryError "JSONDecodeError" "Extra data")
      end
  | None => Raise (LibraryError "JSONDecodeError" "Expecting value")
  end.

Definition decimal (z : Z) : string := NilZero.string_of_int (Z.to_int z).

Fixpoint escaped (s : string) : string :=
  match s with
  | EmptyString => EmptyString
  | String c s' =>
      if Ascii.eqb c dquote || Ascii.eqb c backslash
      then String backslash (String c (escaped s'))
      else String c (escaped s')
  end.

(** A string literal, for printable ASCII text. *)
Definition literal (s : string) : string :=
  String dquote (escaped s ++ String dquote EmptyString).

Fixpoint dumps (v : pyval) : string :=
  match v with
  | VNone => "null"
  | VBool true => "true"
  | VBool false => "false"
  | VInt z => decimal z
  | VFloat _ => "NaN"
  | VStr s => literal s
  | VList l =>
      "[" ++ (fix items (l : list pyval) : string :=
                match l with
                | [] => EmptyString
                | [x] => dumps x
                | x :: l' => dumps x ++ ", " ++ items l'
                end) l ++ "]"
  | VDict d =>
      "{" ++ (fix members (d : list (string * pyval)) : string :=
                match d with
                | [] => EmptyString
                | [(k, x)] => literal k ++ ": " ++ dumps x
                | (k, x) :: d' => literal k ++ ": " ++ dumps x ++ ", " ++ members d'
                end) d ++ "}"
  end.

Fixpoint zeros (n : nat) : string :=
  match n with
  | O => EmptyString
  | S n' => String "0" (zeros n')
  end.

Definition padded (width : nat) (z : Z) : string :=
  let d := decimal z in zeros (width - String.length d) ++ d.

Definition ymd (d : datetime) : string :=
  padded 4 (year d) ++ "/" ++ padded 2 (month d) ++ "/" ++ padded 2 (day d).

Definition iso (d : datetime) : string :=
  padded 4 (year d) ++ "-" ++ padded 2 (month d) ++ "-" ++ padded 2 (day d) ++ "T"
  ++ padded 2 (hour d) ++ ":" ++ padded 2 (minute d) ++ ":" ++ padded 2 (second d)
  ++ (if microsecond d =? 0 then EmptyString else "." ++ padded 6 (microsecond d)).

#[export] Instance runtime : PyRuntime :=
  {| b64decode v :=
       match v with
       | VStr s => Ok (list_byte_of_string s)
       | _ => Raise (TypeError ("argument should be a bytes-like object or ASCII string, not "
                                ++ Py.quoted (Py.type_name v)))
       end;
     gzip_decompress bs := Ok bs;
     json_loads_bytes bs := loads (string_of_list_byte bs);
     json_loads_str := loads;
     json_dumps := dumps;
     format_other := dumps;
     strftime_Ymd := ymd;
     isoformat := iso |}.

Definition clock (n : nat) : datetime :=
  {| year := 2024; month := 1; day := 15;
     hour := 10; minute := 0; second := Z.of_nat n; microsecond := 0 |}.

Definition env : list (string * string) :=
  [("LOG_ANALYSIS_BUCKET", "log-analysis");
   ("SECURITY_ALERT_TOPIC_ARN", "arn:aws:sns:us-east-1:000000000000:security")].

Definition world : World :=
  {| environ := env; utcnow := clock; sink_fault := fun _ _ => None |}.

Definition access_denied : exn :=
  LibraryError "ClientError" "An error occurred (AccessDenied) when calling the PutObject operation".

Definition world_s3_down : World :=
  {| environ := env;
     utcnow := clock;
     sink_fault := fun _ c =>
       match c with
       | PutObject _ _ _ _ => Some access_denied
       | _ => None
       end |}.

Definition start : State := {| ticks := 0; calls := []; stdout := [] |}.

(** The trigger payload that carries [log_data]. *)
Definition lambda_event (log_data : pyval) : pyval :=
  VDict [("awslogs", VDict [("data", VStr (dumps log_data))])].

(** The batch of the end-to-end scenario of the specification (section 8). *)
Definition application_batch : LogBatch :=
  {| logGroup := "my-app-application-logs";
     logStream := "stream-1";
     records := [ {| timestamp := 1; message := "INFO start" |};
                  {| timestamp := 2; message := "ERROR boom" |};
                  {| timestamp := 3; message := "Request completed in 100ms" |} ] |}.

Definition throttled : exn :=
  LibraryError "ClientError" "An error occurred (Throttling) when calling the PutMetricData operation".

(** The metrics service refuses every request. *)
Definition world_metrics_down : World :=
  {| environ := env;
     utcnow := clock;
     sink_fault := fun _ c =>
       match c with
       | PutMetricData _ _ _ _ _ => Some throttled
       | _ => None
       end |}.

(** A run of [n] nines. *)
Fixpoint nines (n : nat) : string :=
  match n with
  | O => EmptyString
  | S n' => String "9" (nines n')
  end.

(** One digit more than [int] converts. *)
Definition long_run : string := nines 4301.

Definition slow_request : LogRecord :=
  {| timestamp := 4; message := "Request completed in " ++ long_run ++ "ms" |}.

(** A request of 10^400 ms. *)
Definition endless_request : LogRecord :=
  {| timestamp := 5; message := "Request completed in 1" ++ zeros 400 ++ "ms" |}.

Definition three_requests : list LogRecord :=
  [ {| timestamp := 1; message := "Request completed in 100ms" |};
    {| timestamp := 2; message := "Request completed in 1ms" |};
    {| timestamp := 3; message := "Request completed" |} ].

Definition error_and_request : list LogRecord :=
  [ {| timestamp := 2; message := "ERROR boom" |};
    {| timestamp := 3; message := "Request completed in 100ms" |} ].

(** An audit message: a JSON object with userId and action, and no
    outcome. *)
Definition audit_message : string :=
  "{" ++ literal "userId" ++ ": " ++ literal "u1" ++ ", "
      ++ literal "action" ++ ": " ++ literal "read" ++ "}".

Definition security_records : list LogRecord :=
  [ {| timestamp := 1; message := "Authentication Failed: bad password" |};
    {| timestamp := 2; message := "request BLOCKED by firewall" |};
    {| timestamp := 3; message := "login ok" |};
    {| timestamp := 4; message := "Unauthorized: authentication failed" |} ].

Definition audit_records : list LogRecord :=
  [ {| timestamp := 5; message := audit_message |};
    {| timestamp := 6; message := "not json" |} ].

(** The environment has no variable set. *)
Definition world_unconfigured : World :=
  {| environ := []; utcnow := clock; sink_fault := fun _ _ => None |}.

(** A later moment of the same day. *)
Definition afternoon : State := {| ticks := 40; calls := []; stdout := [] |}.

End Fixture.

(** * Facts about strings *)

Module PyStrFacts.
Import PyStr.

Lemma prefix_app (sub s : string) :
  String.prefix sub s = true <-> exists suf : string, s = sub ++ suf.
Proof.
  revert s. induction sub as [|a sub IH]; intros s.
  - destruct s; simpl; split; intros _; eauto.
  - destruct s as [|b s]; simpl.
    + split; [discriminate | intros [suf H]; discriminate].
    + destruct (ascii_dec a b) as [->|Hab].
      * rewrite IH. split; intros [suf H]; exists suf; [now rewrite H | now injection H].
      * split; [discriminate | intros [suf H]; injection H; congruence].
Qed.

Lemma contains_occurs (sub s : string) :
  contains sub s = true <-> occurs_in sub s.
Proof.
  unfold occurs_in. induction s as [|c s IH]; cbn [contains].
  - rewrite orb_false_r, prefix_app. split.
    + intros [suf H]. now exists EmptyString, suf.
    + intros [pre [suf H]]. destruct pre; [now exists suf | discriminate].
  - rewrite orb_true_iff, prefix_app, IH. split.
    + intros [[suf H] | [pre [suf H]]].
      * now exists EmptyString, suf.
      * exists (String c pre), suf. simpl. now rewrite H.
    + intros [pre [suf H]]. destruct pre as [|x pre]; simpl in H.
      * left. now exists suf.
      * right. injection H as _ H. now exists pre, suf.
Qed.

Lemma contains_absent (sub s : string) :
  contains sub s = false <-> ~ occurs_in sub s.
Proof.
  rewrite <- contains_occurs. destruct (contains sub s); split; congruence.
Qed.

Lemma lower_app (a b : string) : lower (a ++ b) = lower a ++ lower b.
Proof. induction a as [|x a IH]; simpl; [reflexivity | now rewrite IH]. Qed.

Lemma lower_split (s a b : string) :
  lower s = a ++ b ->
  exists s1 s2 : string, s = s1 ++ s2 /\ lower s1 = a /\ lower s2 = b.
Proof.
  revert s. induction a as [|x a IH]; intros s H; simpl in H.
  - now exists EmptyString, s.
  - destruct s as [|c s]; simpl in H; [discriminate |].
    injection H as Hc H. destruct (IH s H) as [s1 [s2 [-> [H1 H2]]]].
    exists (String c s1), s2. simpl. now rewrite Hc, H1.
Qed.

(** Containment in the lower-cased message is containment of a substring
    that lower-cases to the needle. *)
Lemma contains_lower (sub s : string) :
  contains sub (lower s) = true <->
  exists pre mid suf : string, s = pre ++ mid ++ suf /\ lower mid = sub.
Proof.
  rewrite contains_occurs. unfold occurs_in. split.
  - intros [pre [suf H]].
    destruct (lower_split _ _ _ H) as [s1 [s2 [-> [_ H2]]]].
    destruct (lower_split _ _ _ H2) as [s3 [s4 [-> [H3 _]]]].
    now exists s1, s3, s4.
  - intros [pre [mid [suf [-> H]]]].
    exists (lower pre), (lower suf). now rewrite !lower_app, H.
Qed.

Lemma contains_lower_ignoring_case (sub s : string) :
  lower sub = sub ->
  (contains sub (lower s) = true <-> occurs_in_ignoring_case sub s).
Proof.
  intros Hsub. rewrite contains_lower. unfold occurs_in_ignoring_case.
  now rewrite Hsub.
Qed.

(** The value of a digit string is positional: appending a digit
    multiplies by ten and adds the digit. *)
Lemma int_of_digits_snoc (ds : string) (c : ascii) :
  int_of_digits (ds ++ String c EmptyString) = 10 * int_of_digits ds + digit_value c.
Proof.
  unfold int_of_digits. generalize 0 as acc.
  induction ds as [|x ds IH]; intros acc; simpl; [reflexivity | apply IH].
Qed.

End PyStrFacts.

(** * Facts about the search for [(\d+)ms] *)

Module ReFacts.
Import PyStr PyStrFacts Re.

Lemma m_is_no_digit (suf : string) : match_digits_ms ("ms" ++ suf) = None.
Proof. reflexivity. Qed.

Lemma match_digits_ms_cons (c : ascii) (s : string) :
  match_digits_ms (String c s) =
  if is_digit c then
    match match_digits_ms s with
    | Some g => Some (String c g)
    | None => if String.prefix "ms" s then Some (String c EmptyString) else None
    end
  else None.
Proof. reflexivity. Qed.

(** An attempt that succeeds has consumed a non-empty run of digits that
    "ms" follows. *)
Lemma match_digits_ms_sound (s g : string) :
  match_digits_ms s = Some g ->
  g <> EmptyString /\ all_digits g = true /\ exists suf : string, s = g ++ "ms" ++ suf.
Proof.
  revert g. induction s as [|c s IH]; intros g H; simpl in H; [discriminate |].
  destruct (is_digit c) eqn:Hc; [| discriminate].
  destruct (match_digits_ms s) as [g' |] eqn:Hs.
  - injection H as <-. destruct (IH g' eq_refl) as [_ [Hd [suf ->]]].
    repeat split; [discriminate | simpl; now rewrite Hc | now exists suf].
  - destruct (String.prefix "ms" s) eqn:Hp; [| discriminate].
    injection H as <-. apply prefix_app in Hp. destruct Hp as [suf ->].
    repeat split; [discriminate | simpl; now rewrite Hc | now exists suf].
Qed.

(** An attempt at the start of a run of digits that "ms" follows succeeds
    and captures the whole run. *)
Lemma match_digits_ms_complete (g suf : string) :
  g <> EmptyString -> all_digits g = true ->
  match_digits_ms (g ++ "ms" ++ suf) = Some g.
Proof.
  induction g as [|c g IH]; intros Hne Hd; [congruence |].
  simpl in Hd. apply andb_true_iff in Hd. destruct Hd as [Hc Hd].
  change (String c g ++ "ms" ++ suf) with (String c (g ++ "ms" ++ suf)).
  rewrite match_digits_ms_cons, Hc.
  destruct g as [|c' g].
  - change (EmptyString ++ "ms" ++ suf) with ("ms" ++ suf).
    rewrite m_is_no_digit.
    replace (String.prefix "ms" ("ms" ++ suf)) with true; [reflexivity |].
    symmetry. apply prefix_app. now exists suf.
  - rewrite IH; [reflexivity | discriminate | assumption].
Qed.

Lemma digits_ms_at_0 (s ds : string) :
  digits_ms_at s 0 ds <-> match_digits_ms s = Some ds.
Proof.
  split.
  - intros [pre [suf [-> [Hlen [Hne Hd]]]]].
    destruct pre; [| discriminate]. now apply match_digits_ms_complete.
  - intros H. destruct (match_digits_ms_sound _ _ H) as [Hne [Hd [suf ->]]].
    now exists EmptyString, suf.
Qed.

Lemma digits_ms_at_S (c : ascii) (s ds : string) (i : nat) :
  digits_ms_at (String c s) (S i) ds <-> digits_ms_at s i ds.
Proof.
  split; intros [pre [suf [H [Hlen [Hne Hd]]]]].
  - destruct pre as [|x pre]; [discriminate |]. simpl in H, Hlen.
    injection H as _ ->. exists pre, suf. repeat split; auto.
  - exists (String c pre), suf. subst s. simpl. repeat split; auto.
Qed.

(** The search returns the leftmost run of digits followed by "ms". *)
Lemma search_some_leftmost (s g : string) :
  search_digits_ms s = Some g -> leftmost_digits_ms s g.
Proof.
  induction s as [|c s IH]; cbn [search_digits_ms]; intros H.
  - simpl in H. discriminate.
  - destruct (match_digits_ms (String c s)) as [g' |] eqn:Hm.
    + injection H as ->. exists 0%nat. split; [now apply digits_ms_at_0 | lia].
    + destruct (IH H) as [i [Hat Hleft]]. exists (S i). split.
      * now apply digits_ms_at_S.
      * intros [|j] ds' Hj Hat'.
        -- apply digits_ms_at_0 in Hat'. congruence.
        -- apply digits_ms_at_S in Hat'. apply (Hleft j ds'); [lia | assumption].
Qed.

Lemma search_none_absent (s : string) :
  search_digits_ms s = None -> no_digits_ms s.
Proof.
  induction s as [|c s IH]; cbn [search_digits_ms]; intros H i ds Hat.
  - destruct Hat as [pre [suf [H0 [_ [Hne _]]]]].
    destruct pre; [| discriminate]. destruct ds; [congruence | discriminate].
  - destruct (match_digits_ms (String c s)) as [g' |] eqn:Hm; [discriminate |].
    destruct i as [|i].
    + apply digits_ms_at_0 in Hat. congruence.
    + apply digits_ms_at_S in Hat. exact (IH H i ds Hat).
Qed.

Lemma leftmost_search (s ds : string) :
  leftmost_digits_ms s ds -> search_digits_ms s = Some ds.
Proof.
  intros [i [Hat Hleft]]. revert s Hat Hleft.
  induction i as [|i IH]; intros s Hat Hleft.
  - apply digits_ms_at_0 in Hat. destruct s; cbn [search_digits_ms]; now rewrite Hat.
  - destruct s as [|c s].
    + destruct Hat as [pre [suf [H0 [Hlen _]]]]. destruct pre; discriminate.
    + cbn [search_digits_ms].
      destruct (match_digits_ms (String c s)) as [g' |] eqn:Hm.
      * apply digits_ms_at_0 in Hm. exfalso. apply (Hleft 0%nat g'); [lia | assumption].
      * apply IH; [now apply digits_ms_at_S in Hat |].
        intros j ds' Hj Hat'. apply (Hleft (S j) ds'); [lia | now apply digits_ms_at_S].
Qed.

Lemma over_int_limit_spec (s : string) :
  over_int_limit s = true <-> leftmost_digits_ms_over_limit s.
Proof.
  unfold over_int_limit, leftmost_digits_ms_over_limit. split.
  - destruct (search_digits_ms s) as [g |] eqn:Hs; [| discriminate].
    intros H. exists g. split; [now apply search_some_leftmost | now apply Nat.ltb_lt].
  - intros (ds & Hl & Hlen). rewrite (leftmost_search _ _ Hl). now apply Nat.ltb_lt.
Qed.

(** The duration computed from the search meets the specification. *)
Lemma duration_of_search (s : string) :
  duration_spec s (match search_digits_ms s with
                   | Some g => int_of_digits g
                   | None => 0
                   end).
Proof.
  destruct (search_digits_ms s) as [g |] eqn:Hs; split.
  - intros ds Hl. apply leftmost_search in Hl. congruence.
  - intros Hno. apply search_some_leftmost in Hs. destruct Hs as [i [Hat _]].
    exfalso. exact (Hno i g Hat).
  - intros ds Hl. apply leftmost_search in Hl. congruence.
  - reflexivity.
Qed.

End ReFacts.

(** * Computations that leave the state alone *)

Module Pure.

Lemma stateless_ret {A : Type} (a : A) : stateless (ret a).
Proof. now exists (Ok a). Qed.

Lemma stateless_lift {A : Type} (r : result A) : stateless (lift r).
Proof. now exists r. Qed.

Lemma stateless_bind {A B : Type} (c : M A) (k : A -> M B) :
  stateless c -> (forall a : A, stateless (k a)) -> stateless (bind c k).
Proof.
  intros [[a | e] Hc] Hk.
  - destruct (Hk a) as [r Hr]. exists r. intros st. unfold bind. now rewrite Hc.
  - exists (Raise e). intros st. unfold bind. now rewrite Hc.
Qed.

Lemma stateless_try {A : Type} (c : M A) (h : exn -> M A) :
  stateless c -> (forall e : exn, stateless (h e)) -> stateless (try_except c h).
Proof.
  intros [[a | e] Hc] Hh.
  - exists (Ok a). intros st. unfold try_except. now rewrite Hc.
  - destruct (Hh e) as [r Hr]. exists r. intros st. unfold try_except. now rewrite Hc.
Qed.

Lemma stateless_for_each {A S : Type} (body : A -> S -> M S) (l : list A) :
  (forall (x : A) (s : S), stateless (body x s)) ->
  forall s : S, stateless (for_each body l s).
Proof.
  intros Hbody. induction l as [|x l IH]; intros s; simpl.
  - apply stateless_ret.
  - apply stateless_bind; [apply Hbody | exact IH].
Qed.

Ltac stateless_steps :=
  repeat first
    [ apply stateless_ret
    | apply stateless_lift
    | apply stateless_bind; [| intros ?]
    | apply stateless_try; [| intros ?]
    | match goal with
      | |- stateless (if ?b then _ else _) => destruct b
      | |- stateless (let '(_, _) := ?p in _) => destruct p
      end ].

Lemma application_step_stateless (event : pyval) (acc : Z * list Sample) :
  stateless (application_step event acc).
Proof. unfold application_step. stateless_steps. Qed.

Lemma security_step_stateless (event : pyval) (acc : Z * list Activity) :
  stateless (security_step event acc).
Proof. unfold security_step. stateless_steps. Qed.

Lemma audit_step_stateless {RT : PyRuntime} (event : pyval) (acc : list AuditEvent) :
  stateless (audit_step event acc).
Proof. unfold audit_step. stateless_steps. Qed.

End Pure.

(** * The loops of the extractors on LogRecords *)

Module Loops.
Import PyStr Pure.

(** On a string, [extract_duration] returns the value of the run that the
    search finds, unless that run is too long for [int]. *)
Lemma extract_duration_within_limit (s : string) :
  over_int_limit s = false -> extract_duration (VStr s) = Ok (duration_of s).
Proof.
  unfold extract_duration, re_search_digits_ms, over_int_limit, duration_of,
    Py.int_of_str.
  destruct (Re.search_digits_ms s) as [g |]; [| reflexivity].
  now intros ->.
Qed.

Lemma extract_duration_over_limit (s : string) :
  over_int_limit s = true ->
  exists msg : string, extract_duration (VStr s) = Raise (ValueError msg).
Proof.
  unfold extract_duration, re_search_digits_ms, over_int_limit, Py.int_of_str.
  destruct (Re.search_digits_ms s) as [g |]; [| discriminate].
  intros ->. now eexists.
Qed.

Lemma application_step_record (r : LogRecord) (n : Z) (samples : list Sample)
  (st : State) :
  application_step (event_of_record r) (n, samples) st =
  (Ok (n + (if has_error r then 1 else 0), (samples ++ record_samples r)%list), st).
Proof.
  unfold application_step, record_samples, yields_sample, has_error,
    bind, lift, try_except, ret.
  cbn [event_of_record Py.getitem Py.dict_lookup String.eqb Ascii.eqb Bool.eqb
       Py.contains].
  destruct (over_int_limit (message r)) eqn:Hlim.
  - destruct (extract_duration_over_limit _ Hlim) as [msg ->].
    destruct (contains "ERROR" (message r));
      destruct (contains "Request completed" (message r)); cbn;
      rewrite ?Z.add_0_r, ?app_nil_r; reflexivity.
  - rewrite (extract_duration_within_limit _ Hlim).
    destruct (contains "ERROR" (message r));
      destruct (contains "Request completed" (message r)); cbn;
      rewrite ?Z.add_0_r, ?app_nil_r; reflexivity.
Qed.

Lemma application_loop_records (recs : list LogRecord) (n : Z)
  (samples : list Sample) (st : State) :
  for_each application_step (map event_of_record recs) (n, samples) st =
  (Ok (n + count_if has_error recs, (samples ++ flat_map record_samples recs)%list), st).
Proof.
  revert n samples. induction recs as [|r recs IH]; intros n samples.
  - cbn. unfold ret, count_if. cbn. now rewrite Z.add_0_r, app_nil_r.
  - cbn [map for_each]. unfold bind at 1. rewrite application_step_record, IH.
    unfold count_if. cbn [filter flat_map].
    rewrite <- app_assoc. f_equal. f_equal. f_equal.
    destruct (has_error r); cbn [length]; lia.
Qed.


Lemma py_any_keywords (l : string) :
  py_any (map (fun keyword => Ok (contains keyword l))
              ["unauthorized"; "forbidden"; "blocked"]) =
  Ok (existsb (fun keyword => contains keyword l) ["unauthorized"; "forbidden"; "blocked"]).
Proof.
  cbn. destruct (contains "unauthorized" l); [reflexivity |].
  destruct (contains "forbidden" l); [reflexivity |].
  destruct (contains "blocked" l); reflexivity.
Qed.

Lemma security_step_record (r : LogRecord) (n : Z) (acts : list Activity) (st : State) :
  security_step (event_of_record r) (n, acts) st =
  (Ok (n + (if has_failed_auth r then 1 else 0), (acts ++ record_activities r)%list), st).
Proof.
  unfold security_step, record_activities, has_failed_auth, is_suspicious,
    bind, lift, ret.
  cbn [event_of_record Py.getitem Py.dict_lookup String.eqb Ascii.eqb Bool.eqb Py.lower].
  rewrite py_any_keywords.
  destruct (contains "authentication failed" (lower (message r)));
    destruct (existsb _ _); cbn; rewrite ?Z.add_0_r, ?app_nil_r; reflexivity.
Qed.

Lemma security_loop_records (recs : list LogRecord) (n : Z) (acts : list Activity)
  (st : State) :
  for_each security_step (map event_of_record recs) (n, acts) st =
  (Ok (n + count_if has_failed_auth recs, (acts ++ flat_map record_activities recs)%list), st).
Proof.
  revert n acts. induction recs as [|r recs IH]; intros n acts.
  - cbn. unfold ret, count_if. cbn. now rewrite Z.add_0_r, app_nil_r.
  - cbn [map for_each]. unfold bind at 1. rewrite security_step_record, IH.
    unfold count_if. cbn [filter flat_map].
    rewrite <- app_assoc. f_equal. f_equal. f_equal.
    destruct (has_failed_auth r); cbn [length]; lia.
Qed.

Lemma audit_step_record {RT : PyRuntime} (r : LogRecord) (events : list AuditEvent)
  (st : State) :
  audit_step (event_of_record r) events st =
  (Ok (events ++ record_audit_events r)%list, st).
Proof.
  unfold audit_step, record_audit_events, audit_event_of, field_or_null,
    try_except, bind, lift, ret, json_loads.
  cbn [event_of_record Py.getitem Py.dict_lookup String.eqb Ascii.eqb Bool.eqb].
  destruct (json_loads_str (message r)) as [[| | | | | |d] | e];
    cbn; rewrite ?app_nil_r; try reflexivity.
  destruct (Py.dict_lookup d "userId"), (Py.dict_lookup d "action"),
    (Py.dict_lookup d "resourceType"), (Py.dict_lookup d "resourceId"),
    (Py.dict_lookup d "outcome"); reflexivity.
Qed.

Lemma audit_loop_records {RT : PyRuntime} (recs : list LogRecord)
  (events : list AuditEvent) (st : State) :
  for_each audit_step (map event_of_record recs) events st =
  (Ok (events ++ flat_map record_audit_events recs)%list, st).
Proof.
  revert events. induction recs as [|r recs IH]; intros events.
  - cbn. unfold ret. now rewrite app_nil_r.
  - cbn [map for_each]. unfold bind at 1. rewrite audit_step_record, IH.
    cbn [flat_map]. now rewrite <- app_assoc.
Qed.

(** Whatever the event is, the audit step returns normally. *)
Lemma audit_step_never_raises {RT : PyRuntime} (event : pyval)
  (events : list AuditEvent) :
  exists events' : list AuditEvent,
    forall st : State, audit_step event events st = (Ok events', st).
Proof.
  unfold audit_step.
  match goal with
  | |- context [try_except ?c _] => assert (Hc : stateless c) by stateless_steps
  end.
  destruct Hc as [[a | e] Hc].
  - exists a. intros st. unfold try_except. now rewrite Hc.
  - exists events. intros st. unfold try_except. now rewrite Hc.
Qed.

End Loops.

(** * The sink adapter *)

Module Sinks.

Section WithWorld.
Context {RT : PyRuntime} (W : World).

Lemma send_custom_metric_run (metric_name : string) (value : pynumber)
  (namespace : string) (st : State) :
  send_custom_metric W metric_name value namespace st =
  (match sink_fault W (calls st) (metric_call W namespace metric_name value st) with
   | Some e => Raise e
   | None => Ok tt
   end,
   {| ticks := S (ticks st);
      calls := (calls st ++ [metric_call W namespace metric_name value st])%list;
      stdout := stdout st |}).
Proof.
  unfold send_custom_metric, bind, now, invoke, metric_call. cbn.
  destruct (sink_fault W (calls st) _); reflexivity.
Qed.

End WithWorld.
End Sinks.

Module HandlerFacts.
Import PyStr PyStrFacts.

Section WithWorld.
Context {RT : PyRuntime} (W : World).

(** The [if]/[elif] chain on a string log group runs the extractor of the
    label, and nothing for [Unknown]. *)
Lemma dispatch_classify (log_group : string) (log_events : pyval) (st : State) :
  dispatch W (VStr log_group) log_events st =
  match extractor_of (classify log_group) with
  | Some x => run_extractor W x log_events st
  | None => (Ok tt, st)
  end.
Proof.
  unfold dispatch, classify, bind, lift. cbn [Py.contains].
  destruct (contains "application" log_group); [reflexivity |].
  destruct (contains "security" log_group); [reflexivity |].
  destruct (contains "audit" log_group); reflexivity.
Qed.

Lemma completes_pipeline (event : pyval) (st st' : State) :
  completes W event st st' -> pipeline W event st = (Ok success_response, st').
Proof.
  intros (log_data & lg & ls & evs & st1 & Hd & Hg & Hs & He & Hx & Hp).
  unfold pipeline, bind, lift, ret. now rewrite Hd, Hg, Hs, He, Hx, Hp.
Qed.

Lemma step_raises_pipeline (event : pyval) (st : State) (e : exn) (st' : State) :
  step_raises W event st e st' -> pipeline W event st = (Raise e, st').
Proof.
  unfold pipeline, bind, lift, ret.
  intros [[Hd ->] | [(log_data & Hd & -> & H) | (log_data & lg & ls & evs & Hd & Hg & Hs & He & H)]].
  - now rewrite Hd.
  - rewrite Hd. destruct H as [Hg | [(lg & Hg & Hs) | (lg & ls & Hg & Hs & He)]].
    + now rewrite Hg.
    + now rewrite Hg, Hs.
    + now rewrite Hg, Hs, He.
  - rewrite Hd, Hg, Hs, He. destruct H as [Hx | (st1 & Hx & Hp)].
    + now rewrite Hx.
    + now rewrite Hx, Hp.
Qed.

(** Every run of the [try] block either completes or has a step that
    raises. *)
Lemma pipeline_cases (event : pyval) (st : State) :
  (exists st' : State, completes W event st st') \/
  (exists (e : exn) (st' : State), step_raises W event st e st').
Proof.
  unfold completes, step_raises.
  destruct (decode event) as [log_data | e] eqn:Hd; [| right; exists e, st; now left].
  destruct (Py.getitem log_data "logGroup") as [lg | e] eqn:Hg;
    [| right; exists e, st; right; left; exists log_data; auto].
  destruct (Py.getitem log_data "logStream") as [ls | e] eqn:Hs;
    [| right; exists e, st; right; left; exists log_data; repeat split; auto;
       right; left; now exists lg].
  destruct (Py.getitem log_data "logEvents") as [evs | e] eqn:He;
    [| right; exists e, st; right; left; exists log_data; repeat split; auto;
       right; right; now exists lg, ls].
  destruct (dispatch W lg evs st) as [[[] | e] st1] eqn:Hx;
    [| right; exists e, st1; right; right; exists log_data, lg, ls, evs; auto 10].
  destruct (store_processed_logs W log_data st1) as [[[] | e] st2] eqn:Hp.
  - left. exists st2, log_data, lg, ls, evs, st1. auto 10.
  - right. exists e, st2. right; right. exists log_data, lg, ls, evs.
    repeat split; auto. right. now exists st1.
Qed.

Lemma handler_completes (event : pyval) (st st' : State) :
  completes W event st st' -> handler W event st = (Ok success_response, st').
Proof.
  intros H. unfold handler, try_except. now rewrite (completes_pipeline _ _ _ H).
Qed.

Lemma handler_raises (event : pyval) (st : State) (e : exn) (st' : State) :
  step_raises W event st e st' ->
  handler W event st =
  (Ok (error_response e),
   {| ticks := ticks st';
      calls := calls st';
      stdout := (stdout st' ++ [("Error processing logs: " ++ Py.str_exn e)%string])%list |}).
Proof.
  intros H. unfold handler, try_except. now rewrite (step_raises_pipeline _ _ _ _ H).
Qed.

End WithWorld.
End HandlerFacts.

(** * The application extractor's requests *)

Module Metrics.
Import PyStr Loops Sinks.

Section ApplicationMetrics.
Context {RT : PyRuntime} (W : World).

(** The requests of the application extractor once its loop has returned
    [n] and [samples]. *)
Lemma process_application_logs_after_loop (events : list pyval) (n : Z)
  (samples : list Sample) (st : State) :
  for_each application_step events (0, []) st = (Ok (n, samples), st) ->
  exists (r : result unit) (st' : State),
    process_application_logs W (VList events) st = (r, st') /\
    calls st' = (calls st ++ application_calls W n samples st)%list.
Proof.
  intros Hloop.
  unfold process_application_logs, bind at 1 2, lift. cbn [Py.iter]. rewrite Hloop.
  unfold application_calls, errors_call, average_call, average_duration.
  unfold bind at 1. destruct (n >? 0) eqn:Hn; cbn [andb].
  - rewrite send_custom_metric_run.
    destruct (sink_fault W (calls st) _) as [e |] eqn:Hf.
    + eexists _, _. split; [reflexivity |]. cbn; rewrite ?app_nil_r; reflexivity.
    + destruct samples as [|s samples'] eqn:Hs.
      * eexists _, _. split; [reflexivity |]. cbn; rewrite ?app_nil_r; reflexivity.
      * unfold bind, lift. destruct (Py.true_div _ _) as [avg | e].
        -- rewrite send_custom_metric_run. cbn [ticks calls].
           eexists _, _. split; [reflexivity |]. cbn [calls].
           rewrite <- app_assoc. reflexivity.
        -- eexists _, _. split; [reflexivity |]. cbn [calls]. reflexivity.
  - unfold ret at 1. destruct samples as [|s samples'] eqn:Hs.
    + eexists _, _. split; [reflexivity |]. cbn; rewrite ?app_nil_r; reflexivity.
    + unfold bind, lift. destruct (Py.true_div _ _) as [avg | e].
      * rewrite send_custom_metric_run.
        eexists _, _. split; [reflexivity |]. reflexivity.
      * eexists _, _. split; [reflexivity |]. cbn; rewrite ?app_nil_r; reflexivity.
Qed.

Lemma process_application_logs_calls (recs : list LogRecord) (st : State) :
  exists (r : result unit) (st' : State),
    process_application_logs W (VList (map event_of_record recs)) st = (r, st') /\
    calls st' =
    (calls st ++ application_calls W (count_if has_error recs)
                   (flat_map record_samples recs) st)%list.
Proof.
  apply process_application_logs_after_loop.
  apply (application_loop_records recs 0 [] st).
Qed.

(** With samples, and the error count accepted when it was sent, the
    extractor ends with the division and the request for the average. *)
Lemma process_application_logs_average (events : list pyval) (n : Z)
  (samples : list Sample) (st : State) :
  for_each application_step events (0, []) st = (Ok (n, samples), st) ->
  samples <> [] ->
  (0 < n -> sink_fault W (calls st) (errors_call W n st) = None) ->
  process_application_logs W (VList events) st =
  match average_duration samples with
  | Ok avg =>
      send_custom_metric W "AverageResponseTime" (PFloat avg) "FHIRBridge/Performance"
        (after_errors W n st)
  | Raise e => (Raise e, after_errors W n st)
  end.
Proof.
  intros Hloop Hne Hok.
  unfold process_application_logs, bind at 1 2, lift. cbn [Py.iter]. rewrite Hloop.
  unfold after_errors, average_duration, errors_call in *.
  destruct samples as [|s samples']; [congruence |].
  unfold bind at 1. destruct (n >? 0) eqn:Hn.
  - rewrite send_custom_metric_run, Hok by lia.
    unfold bind, lift. now destruct (Py.true_div _ _).
  - unfold ret at 1. unfold bind, lift. now destruct (Py.true_div _ _).
Qed.

End ApplicationMetrics.

Lemma sum_durations_fold (samples : list Sample) :
  sum_durations samples = fold_right Z.add 0 (map sample_duration samples).
Proof.
  unfold sum_durations.
  assert (H : forall acc, fold_left (fun a m => a + sample_duration m) samples acc =
                          acc + fold_right Z.add 0 (map sample_duration samples)).
  { induction samples as [|s samples IH]; intros acc; cbn; [lia |]. rewrite IH. lia. }
  rewrite H. lia.
Qed.

Lemma inject_Z_sum (l : list Z) :
  (inject_Z (fold_right Z.add 0%Z l) == fold_right Qplus 0 (map inject_Z l))%Q.
Proof.
  induction l as [|z l IH]; cbn; [reflexivity |].
  now rewrite inject_Z_plus, IH.
Qed.

(** The division of the extractor delivers the rounded mean of the
    durations, and raises when that is an infinity. *)
Lemma average_duration_rounded_mean (samples : list Sample) :
  samples <> [] ->
  average_duration samples =
  match rounded_mean (map sample_duration samples) with
  | S754_infinity _ =>
      Raise (OverflowError "integer division result too large for a float")
  | avg => Ok avg
  end.
Proof.
  intros Hne. unfold average_duration, Py.true_div, rounded_mean.
  rewrite sum_durations_fold, length_map.
  destruct (Z.of_nat (length samples) =? 0) eqn:Hz; [| reflexivity].
  apply Z.eqb_eq in Hz. destruct samples; [congruence | cbn [length] in Hz; lia].
Qed.

Lemma filter_errors_calls {RT : PyRuntime} (W : World) (n : Z)
  (samples : list Sample) (st : State) :
  filter (is_metric "ApplicationErrors") (application_calls W n samples st) =
  if n >? 0 then [errors_call W n st] else [].
Proof.
  unfold application_calls. rewrite filter_app.
  destruct (n >? 0); cbn [andb];
    destruct (sink_fault W (calls st) (errors_call W n st));
    destruct samples; try reflexivity;
    destruct (average_duration _); reflexivity.
Qed.

Lemma filter_average_calls {RT : PyRuntime} (W : World) (n : Z)
  (samples : list Sample) (st : State) :
  filter (is_metric "AverageResponseTime") (application_calls W n samples st) =
  if (n >? 0) && match sink_fault W (calls st) (errors_call W n st) with
                 | Some _ => true
                 | None => false
                 end
  then []
  else match samples with
       | [] => []
       | _ :: _ =>
           match average_duration samples with
           | Ok avg => [average_call W n avg st]
           | Raise _ => []
           end
       end.
Proof.
  unfold application_calls. rewrite filter_app.
  destruct (n >? 0); cbn [andb];
    destruct (sink_fault W (calls st) (errors_call W n st));
    destruct samples; try reflexivity;
    destruct (average_duration _); reflexivity.
Qed.

End Metrics.

(** * The claims *)

Import PyStr PyStrFacts ReFacts Pure Loops Sinks HandlerFacts Metrics.

(** C1.  The classifier tests "application", then "security", then "audit"
    by case-sensitive containment and runs the extractor of the first
    substring the log group contains: a group with "application" runs the
    application extractor whatever else it contains, one with "security" and
    no "application" the security extractor, one with "audit" and neither of
    the others the audit extractor, and a group with none of them is
    Unknown and runs no extractor. *)
Theorem classifier_first_match_wins {RT : PyRuntime} (W : World)
  (log_group : string) (log_events : pyval) (st : State) :
  (occurs_in "application" log_group ->
   classify log_group = Application /\
   dispatch W (VStr log_group) log_events st = process_application_logs W log_events st) /\
  (~ occurs_in "application" log_group -> occurs_in "security" log_group ->
   classify log_group = Security /\
   dispatch W (VStr log_group) log_events st = process_security_logs W log_events st) /\
  (~ occurs_in "application" log_group -> ~ occurs_in "security" log_group ->
   occurs_in "audit" log_group ->
   classify log_group = Audit /\
   dispatch W (VStr log_group) log_events st = process_audit_logs W log_events st) /\
  (~ occurs_in "application" log_group -> ~ occurs_in "security" log_group ->
   ~ occurs_in "audit" log_group ->
   classify log_group = Unknown /\
   dispatch W (VStr log_group) log_events st = (Ok tt, st)).
Proof.
  rewrite dispatch_classify. unfold classify.
  repeat split; intros;
    repeat match goal with
      | H : occurs_in _ _ |- _ => apply contains_occurs in H; rewrite H
      | H : ~ occurs_in _ _ |- _ => apply contains_absent in H; rewrite H
      end; reflexivity.
Qed.

Section ClassifierRun.
#[local] Existing Instance Fixture.runtime.

Lemma classifier_first_match_wins_witness :
  classify "audit-of-application-security" = Application /\
  dispatch Fixture.world (VStr "audit-of-application-security") (VList []) Fixture.start =
  process_application_logs Fixture.world (VList []) Fixture.start.
Proof.
  apply (proj1 (classifier_first_match_wins Fixture.world
                  "audit-of-application-security" (VList []) Fixture.start)).
  apply contains_occurs. reflexivity.
Defined.

End ClassifierRun.

(** C2.  The handler always returns a response and never raises.  The
    response has status 200 exactly when every step of the pipeline (decode,
    projection, dispatch with its extractor and sink calls, raw persistence)
    completed without raising, and then it is the static confirmation; when
    a step raises [e], the response has status 500 and its body carries the
    text of [e], whatever requests were already sent. *)
Theorem handler_reports_success_or_error {RT : PyRuntime} (W : World)
  (event : pyval) (st : State) :
  exists (resp : Response) (st' : State),
    handler W event st = (Ok resp, st') /\
    (statusCode resp = 200 <-> exists stf : State, completes W event st stf) /\
    (statusCode resp = 200 ->
     body resp = json_dumps (VStr "Log processing completed successfully") /\
     completes W event st st') /\
    (forall (e : exn) (stf : State),
       step_raises W event st e stf ->
       statusCode resp = 500 /\
       body resp = json_dumps (VStr ("Error processing logs: " ++ Py.str_exn e)) /\
       calls st' = calls stf) /\
    ((exists stf : State, completes W event st stf) \/
     (exists (e : exn) (stf : State), step_raises W event st e stf)) /\
    (statusCode resp = 200 \/ statusCode resp = 500).
Proof.
  destruct (pipeline_cases W event st) as [[stf Hc] | (e & stf & Hr)].
  - exists success_response, stf.
    assert (Hno : forall e' s, ~ step_raises W event st e' s).
    { intros e' s Hr. apply step_raises_pipeline in Hr.
      rewrite (completes_pipeline _ _ _ _ Hc) in Hr. discriminate. }
    split; [now apply handler_completes |].
    split; [split; eauto |].
    split; [intros _; now split |].
    split; [intros e' s Hr; now apply Hno in Hr |].
    split; [left; eauto | now left].
  - exists (error_response e).
    eexists. split; [apply handler_raises; eassumption |].
    assert (Hno : forall s, ~ completes W event st s).
    { intros s Hc. apply completes_pipeline in Hc.
      rewrite (step_raises_pipeline _ _ _ _ _ Hr) in Hc. discriminate. }
    split; [split; [discriminate | intros [s Hc]; now apply Hno in Hc] |].
    split; [discriminate |].
    split.
    + intros e' s Hr'. apply step_raises_pipeline in Hr'.
      rewrite (step_raises_pipeline _ _ _ _ _ Hr) in Hr'.
      injection Hr' as <- <-. now repeat split.
    + split; [right; eauto | now right].
Qed.

Section HandlerRun.
#[local] Existing Instance Fixture.runtime.

Lemma handler_reports_success_or_error_witness :
  exists (resp : Response) (st' : State),
    handler Fixture.world_s3_down
      (Fixture.lambda_event (batch_json Fixture.application_batch)) Fixture.start =
    (Ok resp, st') /\
    statusCode resp = 500 /\
    body resp =
    json_dumps (VStr ("Error processing logs: " ++ Py.str_exn Fixture.access_denied)) /\
    length (calls st') = 3%nat.
Proof.
  destruct (handler_reports_success_or_error Fixture.world_s3_down
              (Fixture.lambda_event (batch_json Fixture.application_batch))
              Fixture.start)
    as (resp & st' & Hrun & _ & _ & Hraise & _).
  exists resp, st'. split; [exact Hrun |].
  edestruct (Hraise Fixture.access_denied) as (H500 & Hbody & Hcalls).
  - right; right.
    exists (batch_json Fixture.application_batch), (VStr "my-app-application-logs"),
      (VStr "stream-1"), (VList (map event_of_record (records Fixture.application_batch))).
    do 4 (split; [reflexivity |]).
    right. eexists. split; [vm_compute; reflexivity | vm_compute; reflexivity].
  - repeat split; [exact H500 | exact Hbody | now rewrite Hcalls].
Defined.

End HandlerRun.

Lemma store_processed_logs_ok {RT : PyRuntime} (W : World) (log_data : pyval)
  (st st' : State) :
  store_processed_logs W log_data st = (Ok tt, st') ->
  exists bucket key : string,
    calls st' = (calls st ++ [PutObject bucket key (json_dumps log_data) "application/json"])%list.
Proof.
  unfold store_processed_logs, bind, getenv, lift, now, invoke.
  destruct (find _ (environ W)) as [kv |]; [| discriminate].
  destruct (Py.getitem log_data "logStream") as [ls | e]; [| discriminate].
  cbn. destruct (sink_fault W _ _); [discriminate |].
  intros H. injection H as <-. cbn. eauto.
Qed.

(** C3.  For a decoded batch whose log group is a string, the handler runs
    at most one extractor (the one the classifier selects: exactly one when
    the group contains "application", "security" or "audit", none otherwise)
    and then persists the batch; whenever the invocation succeeds (status
    200), the last request sent is the [PutObject] of the decoded batch. *)
Theorem one_extractor_then_raw_persistence {RT : PyRuntime} (W : World)
  (event log_data : pyval) (log_group : string) (log_stream log_events : pyval)
  (st : State) :
  decode event = Ok log_data ->
  Py.getitem log_data "logGroup" = Ok (VStr log_group) ->
  Py.getitem log_data "logStream" = Ok log_stream ->
  Py.getitem log_data "logEvents" = Ok log_events ->
  exists selected : option Extractor,
    (selected = None <->
     ~ occurs_in "application" log_group /\ ~ occurs_in "security" log_group /\
     ~ occurs_in "audit" log_group) /\
    pipeline W event st =
    (match selected with
     | Some x => run_extractor W x log_events
     | None => ret tt
     end ;;
     store_processed_logs W log_data ;;
     ret success_response) st /\
    forall (resp : Response) (st' : State),
      handler W event st = (Ok resp, st') -> statusCode resp = 200 ->
      exists (sent : list SinkCall) (bucket key : string),
        calls st' =
        (sent ++ [PutObject bucket key (json_dumps log_data) "application/json"])%list.
Proof.
  intros Hd Hg Hs He. exists (extractor_of (classify log_group)).
  split; [| split].
  - unfold classify. rewrite <- !contains_absent.
    destruct (contains "application" log_group);
      [split; [discriminate | intros [? _]; discriminate] |].
    destruct (contains "security" log_group);
      [split; [discriminate | intros [_ [? _]]; discriminate] |].
    destruct (contains "audit" log_group);
      [split; [discriminate | intros [_ [_ ?]]; discriminate] |].
    split; auto.
  - unfold pipeline, bind at 1 2 3 4, lift. rewrite Hd, Hg, Hs, He.
    unfold bind at 1 3. rewrite dispatch_classify.
    destruct (extractor_of (classify log_group)); reflexivity.
  - intros resp st' Hh H200.
    destruct (pipeline_cases W event st) as [[stf Hc] | (e & stf & Hr)].
    + rewrite (handler_completes _ _ _ _ Hc) in Hh. injection Hh as _ <-.
      destruct Hc as (ld & lg & ls & evs & st1 & Hd' & _ & _ & _ & _ & Hp).
      assert (ld = log_data) by congruence. subst ld.
      destruct (store_processed_logs_ok _ _ _ _ Hp) as (bucket & key & Hcalls).
      now exists (calls st1), bucket, key.
    + rewrite (handler_raises _ _ _ _ _ Hr) in Hh. injection Hh as <- _.
      discriminate.
Qed.

Section PersistenceRun.
#[local] Existing Instance Fixture.runtime.

Lemma one_extractor_then_raw_persistence_witness :
  exists selected : option Extractor,
    (selected = None <->
     ~ occurs_in "application" "my-app-application-logs" /\
     ~ occurs_in "security" "my-app-application-logs" /\
     ~ occurs_in "audit" "my-app-application-logs") /\
    pipeline Fixture.world
      (Fixture.lambda_event (batch_json Fixture.application_batch)) Fixture.start =
    (match selected with
     | Some x => run_extractor Fixture.world x
                   (VList (map event_of_record (records Fixture.application_batch)))
     | None => ret tt
     end ;;
     store_processed_logs Fixture.world (batch_json Fixture.application_batch) ;;
     ret success_response) Fixture.start /\
    forall (resp : Response) (st' : State),
      handler Fixture.world
        (Fixture.lambda_event (batch_json Fixture.application_batch)) Fixture.start =
      (Ok resp, st') ->
      statusCode resp = 200 ->
      exists (sent : list SinkCall) (bucket key : string),
        calls st' =
        (sent ++ [PutObject bucket key
                    (json_dumps (batch_json Fixture.application_batch))
                    "application/json"])%list.
Proof.
  apply (one_extractor_then_raw_persistence Fixture.world
           (Fixture.lambda_event (batch_json Fixture.application_batch))
           (batch_json Fixture.application_batch)
           "my-app-application-logs" (VStr "stream-1")
           (VList (map event_of_record (records Fixture.application_batch)))
           Fixture.start); reflexivity.
Defined.

End PersistenceRun.

Lemma record_samples_spec (recs : list LogRecord) :
  Forall2 sample_spec (filter yields_sample recs) (flat_map record_samples recs).
Proof.
  induction recs as [|r recs IH]; cbn [filter flat_map]; [constructor |].
  unfold record_samples at 1.
  destruct (yields_sample r); [| exact IH].
  cbn [app]. constructor; [| exact IH].
  repeat split; try reflexivity; apply duration_of_search.
Qed.

Lemma yields_sample_spec (r : LogRecord) :
  yields_sample r = true <->
  occurs_in "Request completed" (message r) /\
  ~ leftmost_digits_ms_over_limit (message r).
Proof.
  unfold yields_sample.
  rewrite andb_true_iff, negb_true_iff, <- contains_occurs, <- over_int_limit_spec.
  now rewrite not_true_iff_false.
Qed.

(** C4, as the code has it.  On a batch of LogRecords the loop of the
    application extractor never raises and records one sample, in order, for
    each record whose message contains "Request completed", except those whose
    leftmost run of decimal digits followed by "ms" has more than 4300 digits:
    for them [int] raises ValueError, which the [try] swallows, and the
    record gives no sample.  Records without "Request completed" give none
    either.  A sample carries the record's timestamp and message; its duration
    is the value of the leftmost run of decimal digits followed by "ms", read
    in base 10, and 0 when the message has no such run. *)
Theorem request_completed_samples (recs : list LogRecord) (st : State) :
  exists (n : Z) (samples : list Sample),
    for_each application_step (map event_of_record recs) (0, []) st =
    (Ok (n, samples), st) /\
    Forall2 sample_spec (filter yields_sample recs) samples /\
    forall r : LogRecord,
      yields_sample r = true <->
      occurs_in "Request completed" (message r) /\
      ~ leftmost_digits_ms_over_limit (message r).
Proof.
  exists (0 + count_if has_error recs), ([] ++ flat_map record_samples recs)%list.
  split; [apply application_loop_records |].
  split; [apply record_samples_spec | exact yields_sample_spec].
Qed.

(** The claim fails on a duration of 4301 digits: the message has "Request
    completed" and digits followed by "ms", and no sample is recorded. *)
Lemma long_duration_gives_no_sample :
  occurs_in "Request completed" (message Fixture.slow_request) /\
  leftmost_digits_ms (message Fixture.slow_request) Fixture.long_run /\
  String.length Fixture.long_run = 4301%nat /\
  for_each application_step (map event_of_record [Fixture.slow_request]) (0, [])
    Fixture.start = (Ok (0, []), Fixture.start).
Proof.
  split; [apply contains_occurs; vm_compute; reflexivity |].
  split; [apply search_some_leftmost; vm_compute; reflexivity |].
  split; vm_compute; reflexivity.
Qed.

(** C5, as the code has it.  On a batch of LogRecords: when no sample was
    collected, no metric named "AverageResponseTime" is requested.  When
    samples were collected and the request for "ApplicationErrors" that
    precedes it (made when the error count is positive) did not raise, the
    sum of all collected durations (durations of 0 included) is divided by
    their number in binary64: the value is their unweighted mean rounded to
    the nearest float.  When that float exists, exactly one metric named
    "AverageResponseTime" is requested, under namespace
    "FHIRBridge/Performance", with it as value; when the mean is beyond the
    largest float, the division raises OverflowError and no such metric is
    requested. *)
Theorem average_response_time_metric {RT : PyRuntime} (W : World)
  (recs : list LogRecord) (st : State) :
  exists (n : Z) (samples : list Sample) (r : result unit) (st' : State)
         (sent : list SinkCall),
    for_each application_step (map event_of_record recs) (0, []) st =
    (Ok (n, samples), st) /\
    process_application_logs W (VList (map event_of_record recs)) st = (r, st') /\
    calls st' = (calls st ++ sent)%list /\
    (samples = [] -> filter (is_metric "AverageResponseTime") sent = []) /\
    (samples <> [] ->
     (0 < n -> sink_fault W (calls st) (errors_call W n st) = None) ->
     match rounded_mean (map sample_duration samples) with
     | S754_infinity _ =>
         filter (is_metric "AverageResponseTime") sent = [] /\
         r = Raise (OverflowError "integer division result too large for a float")
     | avg =>
         exists ts : datetime,
           filter (is_metric "AverageResponseTime") sent =
           [PutMetricData "FHIRBridge/Performance" "AverageResponseTime" (PFloat avg)
              "Count" ts]
     end).
Proof.
  destruct (process_application_logs_calls W recs st) as (r & st' & Hrun & Hcalls).
  pose proof (application_loop_records recs 0 [] st) as Hloop. cbn [Z.add app] in Hloop.
  exists (count_if has_error recs), (flat_map record_samples recs), r, st',
    (application_calls W (count_if has_error recs) (flat_map record_samples recs) st).
  split; [exact Hloop |].
  split; [exact Hrun |]. split; [exact Hcalls |].
  rewrite filter_average_calls. split.
  - intros ->. now destruct (_ && _).
  - intros Hne Hok.
    rewrite (process_application_logs_average W _ _ _ _ Hloop Hne Hok) in Hrun.
    assert (Hb : (count_if has_error recs >? 0) &&
                 match sink_fault W (calls st) (errors_call W (count_if has_error recs) st) with
                 | Some _ => true
                 | None => false
                 end = false).
    { destruct (count_if has_error recs >? 0) eqn:Hn; [| reflexivity].
      rewrite Hok by lia. reflexivity. }
    rewrite Hb. rewrite (average_duration_rounded_mean _ Hne) in *.
    destruct (flat_map record_samples recs) as [|s samples] eqn:Hs; [congruence |].
    rewrite <- Hs in *.
    destruct (rounded_mean _) as [sg | sg | | sg m e].
    + eexists. reflexivity.
    + split; [reflexivity |]. now injection Hrun as <- _.
    + eexists. reflexivity.
    + eexists. reflexivity.
Qed.

Section MetricRuns.
#[local] Existing Instance Fixture.runtime.

Lemma average_response_time_metric_witness :
  exists ts : datetime,
    filter (is_metric "AverageResponseTime")
      (calls (snd (process_application_logs Fixture.world
                     (VList (map event_of_record (records Fixture.application_batch)))
                     Fixture.start))) =
    [PutMetricData "FHIRBridge/Performance" "AverageResponseTime"
       (PFloat (S754_finite false 7036874417766400 (-46))) "Count" ts].
Proof.
  destruct (average_response_time_metric Fixture.world
              (records Fixture.application_batch) Fixture.start)
    as (n & samples & r & st' & sent & Hloop & Hrun & Hcalls & _ & Havg).
  rewrite Hrun. cbn [snd]. rewrite Hcalls. cbn [Fixture.start calls app].
  injection Hloop as <- <-.
  exact (Havg ltac:(discriminate) ltac:(reflexivity)).
Defined.

(** The claim fails when the metrics service refuses the error count: the
    batch has one sample, and no "AverageResponseTime" is requested. *)
Lemma average_metric_missing_after_failed_request :
  exists (n : Z) (samples : list Sample) (r : result unit) (st' : State),
    for_each application_step (map event_of_record Fixture.error_and_request) (0, [])
      Fixture.start = (Ok (n, samples), Fixture.start) /\
    samples <> [] /\
    process_application_logs Fixture.world_metrics_down
      (VList (map event_of_record Fixture.error_and_request)) Fixture.start = (r, st') /\
    filter (is_metric "AverageResponseTime") (calls st') = [].
Proof.
  eexists _, _, _, _. split; [reflexivity |]. split; [discriminate |].
  split; reflexivity.
Qed.

End MetricRuns.

Lemma keyword_lower (keyword : string) :
  In keyword ["unauthorized"; "forbidden"; "blocked"] -> lower keyword = keyword.
Proof.
  intros [<- | [<- | [<- | []]]]; reflexivity.
Qed.

Lemma is_suspicious_spec (r : LogRecord) :
  is_suspicious r = true <->
  exists keyword : string,
    In keyword ["unauthorized"; "forbidden"; "blocked"] /\
    occurs_in_ignoring_case keyword (message r).
Proof.
  unfold is_suspicious. rewrite existsb_exists.
  split; intros [keyword [Hin H]]; exists keyword; split; auto;
    now apply (contains_lower_ignoring_case _ _ (keyword_lower _ Hin)).
Qed.

Lemma has_failed_auth_spec (r : LogRecord) :
  has_failed_auth r = true <->
  occurs_in_ignoring_case "authentication failed" (message r).
Proof. now apply contains_lower_ignoring_case. Qed.

(** C6.  For a record of a security batch, the two checks ignore letter
    case and do not depend on each other: the count of failed
    authentications grows by exactly one when the message contains
    "authentication failed" in any letter case and stays as it is otherwise,
    and one activity (the record's timestamp and message) is appended when
    the message contains "unauthorized", "forbidden" or "blocked" in any
    letter case and none otherwise; a message with both does both. *)
Theorem security_checks_independent (r : LogRecord) (n : Z) (acts : list Activity)
  (st : State) :
  exists (n' : Z) (acts' : list Activity),
    security_step (event_of_record r) (n, acts) st = (Ok (n', acts'), st) /\
    (occurs_in_ignoring_case "authentication failed" (message r) -> n' = n + 1) /\
    (~ occurs_in_ignoring_case "authentication failed" (message r) -> n' = n) /\
    ((exists keyword : string,
        In keyword ["unauthorized"; "forbidden"; "blocked"] /\
        occurs_in_ignoring_case keyword (message r)) ->
     acts' = (acts ++ [{| activity_timestamp := VInt (timestamp r);
                          activity_message := VStr (message r) |}])%list) /\
    (~ (exists keyword : string,
          In keyword ["unauthorized"; "forbidden"; "blocked"] /\
          occurs_in_ignoring_case keyword (message r)) ->
     acts' = acts).
Proof.
  eexists _, _. split; [apply security_step_record |].
  rewrite <- has_failed_auth_spec, <- is_suspicious_spec. unfold record_activities.
  destruct (has_failed_auth r), (is_suspicious r);
    repeat split; intros; rewrite ?app_nil_r; try congruence; try lia.
Qed.

Lemma security_checks_independent_witness :
  exists (n' : Z) (acts' : list Activity),
    security_step
      (event_of_record {| timestamp := 7;
                          message := "Authentication FAILED: Unauthorized client" |})
      (0, []) Fixture.start = (Ok (n', acts'), Fixture.start) /\
    n' = 1 /\
    acts' = [{| activity_timestamp := VInt 7;
                activity_message := VStr "Authentication FAILED: Unauthorized client" |}].
Proof.
  destruct (security_checks_independent
              {| timestamp := 7; message := "Authentication FAILED: Unauthorized client" |}
              0 [] Fixture.start) as (n' & acts' & Hrun & Hauth & _ & Hact & _).
  exists n', acts'. split; [exact Hrun |]. split.
  - apply Hauth. apply has_failed_auth_spec. reflexivity.
  - apply Hact. apply is_suspicious_spec. reflexivity.
Defined.

(** C7.  For a record of an audit batch the step never raises.  When the
    message parses to a JSON object, one event is appended that carries the
    record's timestamp and the fields userId, action, resourceType,
    resourceId and outcome of the object, each null when the object lacks it
    (so an object without "outcome" gives an event whose outcome is null).
    When the message does not parse to a JSON object, the record is dropped.
    No event, whatever its shape, makes the step raise. *)
Theorem audit_events_from_json {RT : PyRuntime} (r : LogRecord)
  (events : list AuditEvent) (st : State) :
  exists events' : list AuditEvent,
    audit_step (event_of_record r) events st = (Ok events', st) /\
    (forall d : list (string * pyval),
       json_loads_str (message r) = Ok (VDict d) ->
       events' = (events ++ [audit_event_of r d])%list /\
       audit_timestamp (audit_event_of r d) = VInt (timestamp r) /\
       (Py.dict_lookup d "outcome" = None -> outcome (audit_event_of r d) = VNone)) /\
    ((forall d : list (string * pyval), json_loads_str (message r) <> Ok (VDict d)) ->
     events' = events) /\
    (forall (event : pyval) (st0 : State),
       exists events0 : list AuditEvent,
         audit_step event events st0 = (Ok events0, st0)).
Proof.
  eexists. split; [apply audit_step_record |].
  unfold record_audit_events. split; [| split].
  - intros d Hd. rewrite Hd. repeat split.
    unfold audit_event_of, field_or_null. cbn. now intros ->.
  - intros Hno. destruct (json_loads_str (message r)) as [[| | | | | |d] | e];
      rewrite ?app_nil_r; try reflexivity. now destruct (Hno d).
  - intros event st0. destruct (audit_step_never_raises event events) as [ev Hev].
    now exists ev.
Qed.

Section AuditRun.
#[local] Existing Instance Fixture.runtime.

Lemma audit_events_from_json_witness :
  exists events' : list AuditEvent,
    audit_step (event_of_record {| timestamp := 5; message := Fixture.audit_message |})
      [] Fixture.start = (Ok events', Fixture.start) /\
    events' = [{| audit_timestamp := VInt 5;
                  userId := VStr "u1";
                  action := VStr "read";
                  resourceType := VNone;
                  resourceId := VNone;
                  outcome := VNone |}].
Proof.
  destruct (audit_events_from_json
              {| timestamp := 5; message := Fixture.audit_message |} [] Fixture.start)
    as (events' & Hrun & Hobject & _).
  exists events'. split; [exact Hrun |].
  destruct (Hobject [("userId", VStr "u1"); ("action", VStr "read")] eq_refl) as [-> _].
  reflexivity.
Defined.

End AuditRun.

(** C8.  On a batch of LogRecords, the error count is the number of
    records whose message contains "ERROR" (case-sensitive), and the requests
    of the extractor include a metric named "ApplicationErrors" exactly when
    that count is positive: then there is one, under namespace
    "FHIRBridge/Application", with the count as its value. *)
Theorem application_errors_metric {RT : PyRuntime} (W : World)
  (recs : list LogRecord) (st : State) :
  exists (samples : list Sample) (r : result unit) (st' : State) (sent : list SinkCall),
    for_each application_step (map event_of_record recs) (0, []) st =
    (Ok (count_if has_error recs, samples), st) /\
    (forall rec : LogRecord, has_error rec = true <-> occurs_in "ERROR" (message rec)) /\
    process_application_logs W (VList (map event_of_record recs)) st = (r, st') /\
    calls st' = (calls st ++ sent)%list /\
    (0 < count_if has_error recs <->
     exists c : SinkCall, In c sent /\ is_metric "ApplicationErrors" c = true) /\
    filter (is_metric "ApplicationErrors") sent =
    if count_if has_error recs >? 0
    then [PutMetricData "FHIRBridge/Application" "ApplicationErrors"
            (PInt (count_if has_error recs)) "Count" (utcnow W (ticks st))]
    else [].
Proof.
  destruct (process_application_logs_calls W recs st) as (r & st' & Hrun & Hcalls).
  exists (flat_map record_samples recs), r, st',
    (application_calls W (count_if has_error recs) (flat_map record_samples recs) st).
  split; [apply (application_loop_records recs 0 [] st) |].
  split; [intros rec; apply contains_occurs |].
  split; [exact Hrun |]. split; [exact Hcalls |].
  pose proof (filter_errors_calls W (count_if has_error recs)
                (flat_map record_samples recs) st) as Hf.
  split; [| exact Hf].
  split.
  - intros Hpos. exists (errors_call W (count_if has_error recs) st).
    apply filter_In. rewrite Hf.
    replace (count_if has_error recs >? 0) with true by (symmetry; lia).
    now left.
  - intros [c Hc]. apply filter_In in Hc. rewrite Hf in Hc.
    destruct (count_if has_error recs >? 0) eqn:Hn; [lia | destruct Hc].
Qed.

Section ErrorMetricRun.
#[local] Existing Instance Fixture.runtime.

Lemma application_errors_metric_witness :
  exists c : SinkCall,
    In c (calls (snd (process_application_logs Fixture.world
                        (VList (map event_of_record (records Fixture.application_batch)))
                        Fixture.start))) /\
    is_metric "ApplicationErrors" c = true.
Proof.
  destruct (application_errors_metric Fixture.world
              (records Fixture.application_batch) Fixture.start)
    as (samples & r & st' & sent & _ & _ & Hrun & Hcalls & Hiff & _).
  destruct (proj1 Hiff) as (c & Hin & Hc); [reflexivity |].
  exists c. rewrite Hrun. cbn [snd]. rewrite Hcalls. split; [| exact Hc].
  apply in_or_app. now right.
Defined.

End ErrorMetricRun.


(** C10, as the code has it.  When a message has runs of digits followed
    by "ms", the search stops at the leftmost one: the duration is its base-10
    value when it has at most 4300 digits, and [int] raises ValueError when
    it has more. *)
Theorem extract_duration_leftmost (message ds : string) :
  leftmost_digits_ms message ds ->
  ((String.length ds <= Py.int_max_str_digits)%nat ->
   extract_duration (VStr message) = Ok (int_of_digits ds)) /\
  ((Py.int_max_str_digits < String.length ds)%nat ->
   exists msg : string, extract_duration (VStr message) = Raise (ValueError msg)).
Proof.
  intros H. unfold extract_duration, re_search_digits_ms, Py.int_of_str.
  rewrite (leftmost_search _ _ H). split; intros Hlen.
  - apply Nat.ltb_ge in Hlen. now rewrite Hlen.
  - apply Nat.ltb_lt in Hlen. rewrite Hlen. now eexists.
Qed.

Lemma extract_duration_leftmost_witness :
  leftmost_digits_ms "warmup 5ms, Request completed in 100ms" "5" /\
  extract_duration (VStr "warmup 5ms, Request completed in 100ms") = Ok 5.
Proof.
  assert (H : leftmost_digits_ms "warmup 5ms, Request completed in 100ms" "5")
    by (apply search_some_leftmost; reflexivity).
  split; [exact H |].
  apply (proj1 (extract_duration_leftmost _ _ H)).
  apply Nat.leb_le. reflexivity.
Defined.

(** The claim fails when the leftmost run has 4301 digits: the message has
    two runs of digits followed by "ms", and the extraction raises instead of
    returning the value of the leftmost. *)
Lemma leftmost_run_too_long :
  leftmost_digits_ms (Fixture.long_run ++ "ms, then 5ms") Fixture.long_run /\
  Re.digits_ms_at (Fixture.long_run ++ "ms, then 5ms")
    (String.length (Fixture.long_run ++ "ms, then ")) "5" /\
  extract_duration (VStr (Fixture.long_run ++ "ms, then 5ms")) =
  Raise (ValueError ("Exceeds the limit (4300 digits) for integer string conversion: "
                     ++ "value has 4301 digits; "
                     ++ "use sys.set_int_max_str_digits() to increase the limit")).
Proof.
  split; [apply search_some_leftmost; vm_compute; reflexivity |].
  split; [| vm_compute; reflexivity].
  exists (Fixture.long_run ++ "ms, then "), EmptyString.
  split; [vm_compute; reflexivity |]. split; [reflexivity |].
  split; [discriminate | reflexivity].
Qed.

(** * Runs of the handler *)

Section Scenarios.
#[local] Existing Instance Fixture.runtime.

(** The end-to-end scenario of the specification: one error, one request
    of 100 ms; the error count, the average and the raw batch are sent, and
    the status is 200. *)
Example application_scenario :
  exists body : string,
    handler Fixture.world (Fixture.lambda_event (batch_json Fixture.application_batch))
      Fixture.start =
    (Ok {| statusCode := 200;
           body := json_dumps (VStr "Log processing completed successfully") |},
     {| ticks := 3;
        calls := [PutMetricData "FHIRBridge/Application" "ApplicationErrors" (PInt 1)
                    "Count" (Fixture.clock 0);
                  PutMetricData "FHIRBridge/Performance" "AverageResponseTime"
                    (PFloat (S754_finite false 7036874417766400 (-46))) "Count" (Fixture.clock 1);
                  PutObject "log-analysis" "processed/2024/01/15/stream-1.json" body
                    "application/json"];
        stdout := [] |}) /\
    body = json_dumps (batch_json Fixture.application_batch).
Proof. eexists. split; reflexivity. Qed.

(** A payload that is not JSON: status 500, and the decoder's message in
    the body. *)
Example malformed_payload :
  handler Fixture.world (VDict [("awslogs", VDict [("data", VStr "not json")])])
    Fixture.start =
  (Ok (error_response (LibraryError "JSONDecodeError" "Expecting value")),
   {| ticks := 0; calls := [];
      stdout := ["Error processing logs: Expecting value"] |}).
Proof. reflexivity. Qed.

(** Both metrics are sent, the object store refuses the batch: the caller
    sees status 500 only. *)
Example no_partial_success :
  exists (resp : Response) (st' : State),
    handler Fixture.world_s3_down
      (Fixture.lambda_event (batch_json Fixture.application_batch)) Fixture.start =
    (Ok resp, st') /\
    statusCode resp = 500 /\
    length (filter (is_metric "ApplicationErrors") (calls st')) = 1%nat /\
    length (filter (is_metric "AverageResponseTime") (calls st')) = 1%nat.
Proof. eexists _, _. repeat split; reflexivity. Qed.

(** The classifier compares letters as they are. *)
Example classify_is_case_sensitive :
  classify "Application-Logs" = Unknown /\ classify "prod/audit/security" = Security.
Proof. split; reflexivity. Qed.

Example duration_42 :
  extract_duration (VStr "Request completed in 42ms") = Ok 42.
Proof. reflexivity. Qed.

Example duration_absent :
  for_each application_step
    (map event_of_record [{| timestamp := 9; message := "Request completed" |}])
    (0, []) Fixture.start =
  (Ok (0, [{| sample_timestamp := VInt 9;
              sample_duration := 0;
              sample_message := VStr "Request completed" |}]),
   Fixture.start).
Proof. reflexivity. Qed.

(** Durations of 100, 1 and 0: the value sent is the float nearest to
    101/3, which is 33.666666666666664 and not the mean itself. *)
Example average_is_rounded :
  calls (snd (process_application_logs Fixture.world
                (VList (map event_of_record Fixture.three_requests)) Fixture.start)) =
  [PutMetricData "FHIRBridge/Performance" "AverageResponseTime"
     (PFloat (S754_finite false 4738162107962709 (-47))) "Count" (Fixture.clock 0)] /\
  mean [100; 1; 0] == 101 # 3 /\
  ~ Q_of_float (S754_finite false 4738162107962709 (-47)) == 101 # 3.
Proof.
  split; [reflexivity |]. split; [reflexivity |].
  unfold Q_of_float, Qeq. vm_compute. discriminate.
Qed.

(** One duration of 10^400 ms: the division raises OverflowError and no
    metric is sent. *)
Example average_out_of_range :
  process_application_logs Fixture.world
    (VList (map event_of_record [Fixture.endless_request])) Fixture.start =
  (Raise (OverflowError "integer division result too large for a float"),
   Fixture.start).
Proof. vm_compute. reflexivity. Qed.

(** A record that has no timestamp is skipped by the application
    extractor's [try]. *)
Example sample_skipped_without_timestamp :
  for_each application_step [VDict [("message", VStr "Request completed in 7ms")]]
    (0, []) Fixture.start =
  (Ok (0, []), Fixture.start).
Proof. reflexivity. Qed.

End Scenarios.

(** * Further properties of the code *)

Module Effects.
Import Pure.

Lemma advances_refl (st : State) : advances st st 0 [].
Proof. unfold advances. now rewrite Nat.add_0_r, app_nil_r. Qed.

Lemma advances_trans (st1 st2 st3 : State) (r1 r2 : nat) (s1 s2 : list SinkCall) :
  advances st1 st2 r1 s1 -> advances st2 st3 r2 s2 ->
  advances st1 st3 (r1 + r2) (s1 ++ s2).
Proof.
  intros (Ht1 & Hc1 & Ho1) (Ht2 & Hc2 & Ho2). unfold advances.
  rewrite Ht2, Ht1, Hc2, Hc1, Ho2, Ho1, app_assoc. repeat split. lia.
Qed.

Lemma effect_le {A : Type} (c : M A) (r s r' s' : nat) :
  effect_within c r s -> (r <= r')%nat -> (s <= s')%nat -> effect_within c r' s'.
Proof.
  intros Hc Hr Hs st. destruct (Hc st) as (x & y & Hadv & Hx & Hy).
  exists x, y. split; [assumption | lia].
Qed.

Lemma effect_ret {A : Type} (a : A) (r s : nat) : effect_within (ret a) r s.
Proof. intros st. exists 0%nat, []. split; [apply advances_refl | cbn; lia]. Qed.

Lemma effect_lift {A : Type} (x : result A) (r s : nat) : effect_within (lift x) r s.
Proof. intros st. exists 0%nat, []. split; [apply advances_refl | cbn; lia]. Qed.

Lemma effect_stateless {A : Type} (c : M A) (r s : nat) :
  stateless c -> effect_within c r s.
Proof.
  intros [x Hx] st. rewrite Hx. exists 0%nat, [].
  split; [apply advances_refl | cbn; lia].
Qed.

Lemma effect_bind {A B : Type} (c : M A) (k : A -> M B) (r1 s1 r2 s2 : nat) :
  effect_within c r1 s1 -> (forall a : A, effect_within (k a) r2 s2) ->
  effect_within (bind c k) (r1 + r2) (s1 + s2).
Proof.
  intros Hc Hk st. destruct (Hc st) as (r & s & Hadv & Hr & Hs).
  unfold bind. destruct (c st) as [[a | e] st1]; cbn [snd] in *.
  - destruct (Hk a st1) as (r' & s' & Hadv' & Hr' & Hs').
    exists (r + r')%nat, (s ++ s')%list.
    split; [eapply advances_trans; eassumption |]. rewrite length_app. lia.
  - exists r, s. split; [assumption | lia].
Qed.

Lemma effect_try {A : Type} (c : M A) (h : exn -> M A) (r1 s1 r2 s2 : nat) :
  effect_within c r1 s1 -> (forall e : exn, effect_within (h e) r2 s2) ->
  effect_within (try_except c h) (r1 + r2) (s1 + s2).
Proof.
  intros Hc Hh st. destruct (Hc st) as (r & s & Hadv & Hr & Hs).
  unfold try_except. destruct (c st) as [[a | e] st1]; cbn [snd] in *.
  - exists r, s. split; [assumption | lia].
  - destruct (Hh e st1) as (r' & s' & Hadv' & Hr' & Hs').
    exists (r + r')%nat, (s ++ s')%list.
    split; [eapply advances_trans; eassumption |]. rewrite length_app. lia.
Qed.

Section WithWorld.
Context {RT : PyRuntime} (W : World).

Lemma effect_now (r s : nat) : effect_within (now W) (S r) s.
Proof.
  intros st. exists 1%nat, []. cbn. unfold advances. cbn.
  rewrite app_nil_r. repeat split; lia.
Qed.

Lemma effect_getenv (k : string) (r s : nat) : effect_within (getenv W k) r s.
Proof. apply effect_lift. Qed.

Lemma effect_invoke (c : SinkCall) (r s : nat) : effect_within (invoke W c) r (S s).
Proof.
  intros st. exists 0%nat, [c]. unfold invoke.
  destruct (sink_fault W (calls st) c); cbn; unfold advances; cbn;
    repeat split; lia.
Qed.

Lemma effect_send_custom_metric (name : string) (v : pynumber) (ns : string)
  (r s : nat) :
  effect_within (send_custom_metric W name v ns) (S r) (S s).
Proof.
  unfold send_custom_metric.
  apply (effect_bind _ _ 1 0 r (S s)); [apply effect_now | intros ts; apply effect_invoke].
Qed.

Lemma effect_send_security_alert (acts : list Activity) (r s : nat) :
  effect_within (send_security_alert W acts) (S r) (S s).
Proof.
  unfold send_security_alert.
  apply (effect_bind _ _ 1 0 r (S s)); [apply effect_now | intros ts].
  apply (effect_bind _ _ 0 0 r (S s)); [apply effect_getenv | intros topic].
  apply effect_invoke.
Qed.

Lemma effect_store_processed_logs (log_data : pyval) (r s : nat) :
  effect_within (store_processed_logs W log_data) (S r) (S s).
Proof.
  unfold store_processed_logs.
  apply (effect_bind _ _ 0 0 (S r) (S s)); [apply effect_getenv | intros bucket].
  apply (effect_bind _ _ 1 0 r (S s)); [apply effect_now | intros ts].
  apply (effect_bind _ _ 0 0 r (S s)); [apply effect_lift | intros ls].
  apply effect_invoke.
Qed.

Lemma effect_store_audit_summary (events : list AuditEvent) (r s : nat) :
  effect_within (store_audit_summary W events) (S (S r)) (S s).
Proof.
  unfold store_audit_summary.
  apply (effect_bind _ _ 0 0 (S (S r)) (S s)); [apply effect_getenv | intros bucket].
  apply (effect_bind _ _ 1 0 (S r) (S s)); [apply effect_now | intros ts].
  apply (effect_bind _ _ 1 0 r (S s)); [apply effect_now | intros date].
  apply effect_invoke.
Qed.

Lemma effect_process_application_logs (log_events : pyval) :
  effect_within (process_application_logs W log_events) 2 2.
Proof.
  unfold process_application_logs.
  apply (effect_bind _ _ 0 0 2 2); [apply effect_lift | intros events].
  apply (effect_bind _ _ 0 0 2 2);
    [apply effect_stateless, stateless_for_each, application_step_stateless |].
  intros [n samples].
  apply (effect_bind _ _ 1 1 1 1).
  - destruct (n >? 0); [apply effect_send_custom_metric | apply effect_ret].
  - intros _. destruct samples; [apply effect_ret |].
    apply (effect_bind _ _ 0 0 1 1); [apply effect_lift | intros avg].
    apply effect_send_custom_metric.
Qed.

Lemma effect_process_security_logs (log_events : pyval) :
  effect_within (process_security_logs W log_events) 2 2.
Proof.
  unfold process_security_logs.
  apply (effect_bind _ _ 0 0 2 2); [apply effect_lift | intros events].
  apply (effect_bind _ _ 0 0 2 2);
    [apply effect_stateless, stateless_for_each, security_step_stateless |].
  intros [n acts].
  apply (effect_bind _ _ 1 1 1 1).
  - destruct (n >? 0); [apply effect_send_custom_metric | apply effect_ret].
  - intros _. destruct acts; [apply effect_ret | apply effect_send_security_alert].
Qed.

Lemma effect_process_audit_logs (log_events : pyval) :
  effect_within (process_audit_logs W log_events) 2 1.
Proof.
  unfold process_audit_logs.
  apply (effect_bind _ _ 0 0 2 1); [apply effect_lift | intros events].
  apply (effect_bind _ _ 0 0 2 1);
    [apply effect_stateless, stateless_for_each, audit_step_stateless |].
  intros evs. destruct evs; [apply effect_ret | apply effect_store_audit_summary].
Qed.

Lemma effect_dispatch (log_group log_events : pyval) :
  effect_within (dispatch W log_group log_events) 2 2.
Proof.
  unfold dispatch.
  apply (effect_bind _ _ 0 0 2 2); [apply effect_lift | intros [|]].
  { apply effect_process_application_logs. }
  apply (effect_bind _ _ 0 0 2 2); [apply effect_lift | intros [|]].
  { apply effect_process_security_logs. }
  apply (effect_bind _ _ 0 0 2 2); [apply effect_lift | intros [|]].
  - apply (effect_le _ 2 1); [apply effect_process_audit_logs | lia | lia].
  - apply effect_ret.
Qed.

Lemma effect_pipeline (event : pyval) : effect_within (pipeline W event) 3 3.
Proof.
  unfold pipeline.
  apply (effect_bind _ _ 0 0 3 3); [apply effect_lift | intros log_data].
  apply (effect_bind _ _ 0 0 3 3); [apply effect_lift | intros lg].
  apply (effect_bind _ _ 0 0 3 3); [apply effect_lift | intros ls].
  apply (effect_bind _ _ 0 0 3 3); [apply effect_lift | intros evs].
  apply (effect_bind _ _ 2 2 1 1); [apply effect_dispatch | intros _].
  apply (effect_bind _ _ 1 1 0 0); [apply effect_store_processed_logs | intros _].
  apply effect_ret.
Qed.

End WithWorld.
End Effects.

Import Effects.

Module Durations.

Lemma digit_value_nonneg (c : ascii) : is_digit c = true -> 0 <= digit_value c <= 9.
Proof.
  unfold is_digit, digit_value. intros H. cbv zeta in H. apply andb_true_iff in H.
  destruct H as [H1 H2]. apply Nat.leb_le in H1, H2.
  generalize dependent (nat_of_ascii c). intros k H1 H2.
  apply Nat2Z.inj_le in H1, H2.
  change (Z.of_nat 48) with 48 in H1. change (Z.of_nat 57) with 57 in H2. lia.
Qed.

Lemma int_of_digits_from_nonneg (s : string) (acc : Z) :
  all_digits s = true -> 0 <= acc -> 0 <= int_of_digits_from acc s.
Proof.
  revert acc. induction s as [|c s IH]; intros acc Hd Hacc;
    cbn [all_digits int_of_digits_from] in *; [assumption |].
  apply andb_true_iff in Hd. destruct Hd as [Hc Hd].
  apply IH; [assumption |]. pose proof (digit_value_nonneg c Hc). lia.
Qed.

Lemma search_digits_ms_digits (s g : string) :
  Re.search_digits_ms s = Some g -> g <> EmptyString /\ all_digits g = true.
Proof.
  intros H. apply search_some_leftmost in H.
  destruct H as (i & (pre & suf & _ & _ & Hne & Hd) & _). now split.
Qed.

Lemma duration_of_nonneg (s : string) : 0 <= duration_of s.
Proof.
  unfold duration_of. destruct (Re.search_digits_ms s) as [g |] eqn:Hs; [| lia].
  apply search_digits_ms_digits in Hs. destruct Hs as [_ Hd].
  now apply int_of_digits_from_nonneg.
Qed.

Lemma extract_duration_ok_nonneg (message : pyval) (d : Z) :
  extract_duration message = Ok d -> 0 <= d.
Proof.
  destruct message; try discriminate.
  destruct (over_int_limit s) eqn:Hlim.
  - destruct (extract_duration_over_limit _ Hlim) as [msg ->]. discriminate.
  - rewrite (extract_duration_within_limit _ Hlim). intros H. injection H as <-.
    apply duration_of_nonneg.
Qed.

End Durations.

Import Durations.

(** X1.  On every string, [extract_duration] either returns a duration
    that is not negative or raises ValueError; it raises exactly when the
    leftmost run of digits followed by "ms" has more than 4300 digits. *)
Theorem extract_duration_nonnegative_or_value_error (message : string) :
  (~ leftmost_digits_ms_over_limit message /\
   exists d : Z, extract_duration (VStr message) = Ok d /\ 0 <= d) \/
  (leftmost_digits_ms_over_limit message /\
   exists msg : string, extract_duration (VStr message) = Raise (ValueError msg)).
Proof.
  destruct (over_int_limit message) eqn:Hlim.
  - right. split; [now apply over_int_limit_spec | now apply extract_duration_over_limit].
  - left. split.
    + rewrite <- over_int_limit_spec. congruence.
    + exists (duration_of message).
      split; [now apply extract_duration_within_limit | apply duration_of_nonneg].
Qed.

Module LoopBounds.

(** One turn of the application loop that returns normally: the count grows
    by at most one, at most one sample is appended, and its duration is not
    negative. *)
Lemma application_step_ok (event : pyval) (n : Z) (samples : list Sample)
  (st : State) (n' : Z) (samples' : list Sample) (st' : State) :
  application_step event (n, samples) st = (Ok (n', samples'), st') ->
  n <= n' <= n + 1 /\
  (samples' = samples \/
   exists x : Sample, samples' = (samples ++ [x])%list /\ 0 <= sample_duration x).
Proof.
  unfold application_step, bind, lift, try_except, ret.
  destruct (Py.getitem event "message") as [message | e]; [| discriminate].
  destruct (Py.contains "ERROR" message) as [b1 | e]; [| discriminate].
  destruct (Py.contains "Request completed" message) as [b2 | e]; [| discriminate].
  destruct b2.
  - destruct (extract_duration message) as [d | e] eqn:Hd.
    + destruct (Py.getitem event "timestamp") as [ts | e].
      * intros H. injection H as <- <- <-. split; [destruct b1; lia |].
        right. eexists. split; [reflexivity |]. cbn.
        exact (extract_duration_ok_nonneg _ _ Hd).
      * intros H. injection H as <- <- <-. split; [destruct b1; lia | now left].
    + intros H. injection H as <- <- <-. split; [destruct b1; lia | now left].
  - intros H. injection H as <- <- <-. split; [destruct b1; lia | now left].
Qed.

Lemma application_loop_ok (events : list pyval) (n : Z) (samples : list Sample)
  (st : State) (n' : Z) (samples' : list Sample) (st' : State) :
  for_each application_step events (n, samples) st = (Ok (n', samples'), st') ->
  n <= n' <= n + Z.of_nat (length events) /\
  exists added : list Sample,
    samples' = (samples ++ added)%list /\
    (length added <= length events)%nat /\
    Forall (fun x => 0 <= sample_duration x) added.
Proof.
  revert n samples st. induction events as [|ev events IH]; intros n samples st.
  - cbn. unfold ret. intros H. injection H as <- <- <-.
    split; [lia |]. exists []. rewrite app_nil_r. repeat split; auto.
  - cbn [for_each]. unfold bind at 1.
    destruct (application_step ev (n, samples) st) as [[[n1 s1] | e] st1] eqn:Hstep;
      [| discriminate].
    intros Hrest. apply application_step_ok in Hstep. apply IH in Hrest.
    destruct Hstep as [Hn Hs]. destruct Hrest as [Hn' (added & -> & Hlen & Hall)].
    cbn [length]. split; [lia |].
    destruct Hs as [-> | (x & -> & Hx)].
    + exists added. repeat split; auto.
    + exists (x :: added). rewrite <- app_assoc. cbn. repeat split; auto. lia.
Qed.

End LoopBounds.

(** X2.  Whatever the events are, when the loop of the application
    extractor returns normally the error count lies between 0 and the number
    of events, there are at most as many samples as events, and no sample has
    a negative duration. *)
Theorem application_loop_bounds (events : list pyval) (st : State) (n : Z)
  (samples : list Sample) (st' : State) :
  for_each application_step events (0, []) st = (Ok (n, samples), st') ->
  0 <= n <= Z.of_nat (length events) /\
  (length samples <= length events)%nat /\
  Forall (fun x => 0 <= sample_duration x) samples.
Proof.
  intros H. apply LoopBounds.application_loop_ok in H.
  destruct H as [Hn (added & -> & Hlen & Hall)]. cbn [app]. repeat split; auto; lia.
Qed.

Lemma application_loop_bounds_witness :
  0 <= 1 <= Z.of_nat (length (map event_of_record (records Fixture.application_batch))) /\
  (1 <= length (map event_of_record (records Fixture.application_batch)))%nat /\
  Forall (fun x => 0 <= sample_duration x)
    [{| sample_timestamp := VInt 3;
        sample_duration := 100;
        sample_message := VStr "Request completed in 100ms" |}].
Proof.
  apply (application_loop_bounds
           (map event_of_record (records Fixture.application_batch)) Fixture.start 1
           [{| sample_timestamp := VInt 3;
               sample_duration := 100;
               sample_message := VStr "Request completed in 100ms" |}] Fixture.start).
  reflexivity.
Defined.

(** X3.  A record whose message is a string with "Request completed" and
    that has no timestamp is skipped by the sample collection and nothing is
    raised, while its "ERROR" is still counted. *)
Theorem sample_needs_timestamp (event : pyval) (msg : string) (e : exn) (n : Z)
  (samples : list Sample) (st : State) :
  Py.getitem event "message" = Ok (VStr msg) ->
  Py.getitem event "timestamp" = Raise e ->
  occurs_in "Request completed" msg ->
  application_step event (n, samples) st =
  (Ok (if contains "ERROR" msg then n + 1 else n, samples), st).
Proof.
  intros Hm Ht Hreq. apply contains_occurs in Hreq.
  unfold application_step, bind, lift, try_except, ret.
  rewrite Hm. cbn [Py.contains]. rewrite Hreq.
  destruct (over_int_limit msg) eqn:Hlim.
  - destruct (extract_duration_over_limit _ Hlim) as [m ->]. reflexivity.
  - rewrite (extract_duration_within_limit _ Hlim), Ht. reflexivity.
Qed.

Lemma sample_needs_timestamp_witness :
  application_step (VDict [("message", VStr "ERROR: Request completed in 7ms")])
    (0, []) Fixture.start = (Ok (1, []), Fixture.start).
Proof.
  apply (sample_needs_timestamp
           (VDict [("message", VStr "ERROR: Request completed in 7ms")])
           "ERROR: Request completed in 7ms" (KeyError "timestamp") 0 [] Fixture.start).
  - reflexivity.
  - reflexivity.
  - apply contains_occurs. reflexivity.
Defined.

Module Aborts.

Lemma application_step_no_message (event : pyval) (e : exn) (acc : Z * list Sample)
  (st : State) :
  Py.getitem event "message" = Raise e -> application_step event acc st = (Raise e, st).
Proof.
  intros H. destruct acc. unfold application_step, bind, lift. now rewrite H.
Qed.

Lemma security_step_no_message (event : pyval) (e : exn) (acc : Z * list Activity)
  (st : State) :
  Py.getitem event "message" = Raise e -> security_step event acc st = (Raise e, st).
Proof.
  intros H. destruct acc. unfold security_step, bind, lift. now rewrite H.
Qed.

(** A loop whose body is stateless and raises on one of the items
    raises. *)
Lemma for_each_raises {A S : Type} (body : A -> S -> M S) (l : list A) (x : A) :
  (forall (y : A) (s : S), stateless (body y s)) ->
  In x l ->
  (forall s : S, exists e : exn, forall st : State, body x s st = (Raise e, st)) ->
  forall s : S, exists e : exn, forall st : State, for_each body l s st = (Raise e, st).
Proof.
  intros Hbody Hin Hx. induction l as [|y l IH]; [destruct Hin |]. intros s.
  cbn [for_each]. destruct (Hbody y s) as [[s1 | e] Hy].
  - destruct Hin as [-> | Hin].
    + destruct (Hx s) as [e He]. specialize (Hy (Build_State 0 [] [])).
      rewrite He in Hy. discriminate.
    + destruct (IH Hin s1) as [e He]. exists e. intros st. unfold bind.
      now rewrite Hy, He.
  - exists e. intros st. unfold bind. now rewrite Hy.
Qed.

End Aborts.

(** X4.  When one event of the batch has no message (subscripting it
    raises), the application extractor and the security extractor raise
    without having sent any request or read the clock. *)
Theorem record_without_message_aborts {RT : PyRuntime} (W : World)
  (events : list pyval) (event : pyval) (e0 : exn) (st : State) :
  In event events ->
  Py.getitem event "message" = Raise e0 ->
  (exists e : exn, process_application_logs W (VList events) st = (Raise e, st)) /\
  (exists e : exn, process_security_logs W (VList events) st = (Raise e, st)).
Proof.
  intros Hin Hmsg. split.
  - destruct (Aborts.for_each_raises application_step events event
                application_step_stateless Hin) with (s := (0, @nil Sample)) as [e He].
    { intros s. exists e0. intros st0. now apply Aborts.application_step_no_message. }
    exists e. unfold process_application_logs, bind, lift. cbn [Py.iter]. now rewrite He.
  - destruct (Aborts.for_each_raises security_step events event
                security_step_stateless Hin) with (s := (0, @nil Activity)) as [e He].
    { intros s. exists e0. intros st0. now apply Aborts.security_step_no_message. }
    exists e. unfold process_security_logs, bind, lift. cbn [Py.iter]. now rewrite He.
Qed.

Section AbortRun.
#[local] Existing Instance Fixture.runtime.

Lemma record_without_message_aborts_witness :
  (exists e : exn,
     process_application_logs Fixture.world
       (VList [event_of_record {| timestamp := 1; message := "ERROR boom" |};
               VDict [("timestamp", VInt 2)]]) Fixture.start = (Raise e, Fixture.start)) /\
  (exists e : exn,
     process_security_logs Fixture.world
       (VList [event_of_record {| timestamp := 1; message := "ERROR boom" |};
               VDict [("timestamp", VInt 2)]]) Fixture.start = (Raise e, Fixture.start)).
Proof.
  apply (record_without_message_aborts Fixture.world _ (VDict [("timestamp", VInt 2)])
           (KeyError "message")).
  - right. now left.
  - reflexivity.
Defined.

End AbortRun.

Module MetricValues.

Lemma Q_of_int_nonneg (n : Z) : 0 <= n -> (0 <= Q_of_pynumber (PInt n))%Q.
Proof. intros H. cbn. unfold Qle. cbn. lia. Qed.

(** Rounding keeps the sign. *)
Lemma binary_round_aux_sign (sx : bool) (mx ex : Z) (lx : location) :
  match binary_round_aux 53 1024 sx mx ex lx with
  | S754_finite s _ _ => s = sx
  | _ => True
  end.
Proof.
  unfold binary_round_aux.
  destruct (shr_fexp 53 1024 mx ex lx) as [mrs' e'].
  destruct (shr_fexp 53 1024 _ e' loc_Exact) as [mrs'' e''].
  destruct (shr_m mrs''); [exact I | | exact I].
  now destruct (Z.leb e'' (1024 - 53)).
Qed.

Lemma Q_of_float_nonneg (f : spec_float) :
  match f with
  | S754_finite s _ _ => s = false
  | _ => True
  end ->
  (0 <= Q_of_float f)%Q.
Proof.
  destruct f as [s | s | | s m e]; intros H; cbn [Q_of_float];
    try (unfold Qle; cbn; lia).
  subst s. apply Qmult_le_0_compat; [unfold Qle; cbn; lia |].
  apply Qpower_0_le. unfold Qle. cbn. lia.
Qed.

(** The quotient of an int that is not negative by a positive one is not
    negative. *)
Lemma true_div_nonneg (a b : Z) (q : spec_float) :
  0 <= a -> 0 < b -> Py.true_div a b = Ok q -> (0 <= Q_of_float q)%Q.
Proof.
  intros Ha Hb. unfold Py.true_div.
  destruct (b =? 0); [discriminate |].
  destruct b as [| pb | pb]; try lia. destruct a as [| pa | pa]; try lia.
  - cbn. intros H. injection H as <-. now apply Q_of_float_nonneg.
  - cbn [Py.exact_of_int SFdiv].
    destruct (SFdiv_core_binary 53 1024 (Z.pos pa) 0 (Z.pos pb) 0) as [[mz ez] lz].
    cbn [xorb].
    pose proof (binary_round_aux_sign false mz ez lz) as Hs.
    destruct (binary_round_aux 53 1024 false mz ez lz) as [s | s | | s m e];
      try discriminate; intros H; injection H as <-; now apply Q_of_float_nonneg.
Qed.

Lemma sum_durations_nonneg (samples : list Sample) :
  Forall (fun x => 0 <= sample_duration x) samples -> 0 <= sum_durations samples.
Proof.
  rewrite sum_durations_fold. induction 1 as [|x l Hx Hl IH]; cbn; lia.
Qed.

Section WithWorld.
Context {RT : PyRuntime} (W : World).

Lemma application_calls_values (n : Z) (samples : list Sample) (st : State) :
  0 <= n -> Forall (fun x => 0 <= sample_duration x) samples ->
  Forall (fun c => match c with
                   | PutMetricData _ _ v _ _ => (0 <= Q_of_pynumber v)%Q
                   | _ => False
                   end)
         (application_calls W n samples st).
Proof.
  intros Hn Hs. unfold application_calls. apply Forall_app. split.
  - destruct (n >? 0); constructor; [| constructor]. now apply Q_of_int_nonneg.
  - destruct (_ && _); [constructor |].
    destruct samples as [|s samples'] eqn:E; [constructor |].
    rewrite <- E in *.
    destruct (average_duration samples) as [avg | e] eqn:Havg; constructor;
      [| constructor].
    unfold average_call. cbn [Q_of_pynumber].
    apply (true_div_nonneg _ _ _ (sum_durations_nonneg _ Hs)) in Havg; [exact Havg |].
    subst samples. cbn [length]. lia.
Qed.

End WithWorld.
End MetricValues.

(** X5.  Whatever the value of [log_events], every request that
    [process_application_logs] sends is a metric whose value is not negative
    (the error count as well as the average duration). *)
Theorem application_metrics_nonnegative {RT : PyRuntime} (W : World)
  (log_events : pyval) (st : State) :
  exists sent : list SinkCall,
    calls (snd (process_application_logs W log_events st)) = (calls st ++ sent)%list /\
    Forall (fun c => match c with
                     | PutMetricData _ _ v _ _ => (0 <= Q_of_pynumber v)%Q
                     | _ => False
                     end) sent.
Proof.
  destruct (Py.iter log_events) as [events | e] eqn:Hiter.
  - destruct (stateless_for_each application_step events application_step_stateless
                (0, [])) as [[[n samples] | e] Hloop].
    + pose proof (LoopBounds.application_loop_ok events 0 [] st n samples st (Hloop st))
        as (Hn & added & Hadded & _ & Hs).
      cbn [app] in Hadded. subst added.
      assert (Hrun : exists (r : result unit) (st' : State),
                 process_application_logs W log_events st = (r, st') /\
                 calls st' = (calls st ++ application_calls W n samples st)%list).
      { destruct (process_application_logs_after_loop W events n samples st
                    (Hloop st)) as (r & st' & Hrun & Hcalls).
        exists r, st'. split; [| exact Hcalls]. rewrite <- Hrun.
        unfold process_application_logs, bind at 1 3, lift. rewrite Hiter. reflexivity. }
      destruct Hrun as (r & st' & Hrun & Hcalls).
      exists (application_calls W n samples st). rewrite Hrun. split; [exact Hcalls |].
      apply MetricValues.application_calls_values; [lia | exact Hs].
    + exists []. split; [| constructor].
      unfold process_application_logs, bind, lift. rewrite Hiter, Hloop.
      cbn. now rewrite app_nil_r.
  - exists []. split; [| constructor].
    unfold process_application_logs, bind, lift. rewrite Hiter. cbn. now rewrite app_nil_r.
Qed.

Module SinkRuns.

Section WithWorld.
Context {RT : PyRuntime} (W : World).

Lemma getenv_run (k : string) (st : State) :
  getenv W k st =
  (match env_lookup W k with
   | Some v => Ok v
   | None => Raise (KeyError k)
   end, st).
Proof.
  unfold getenv, env_lookup, lift. now destruct (find _ (environ W)).
Qed.

Lemma invoke_run (c : SinkCall) (st : State) :
  invoke W c st = (answer W st c, sent_from st c).
Proof. unfold invoke, answer, sent_from. now destruct (sink_fault W (calls st) c). Qed.

Lemma send_security_alert_run (acts : list Activity) (st : State) :
  send_security_alert W acts st =
  match env_lookup W "SECURITY_ALERT_TOPIC_ARN" with
  | None => (Raise (KeyError "SECURITY_ALERT_TOPIC_ARN"), ticked st)
  | Some topic =>
      let c := Publish topic (json_dumps (alert_message acts (utcnow W (ticks st))))
                 "FHIR Bridge Security Alert" in
      (answer W (ticked st) c, sent_from (ticked st) c)
  end.
Proof.
  unfold send_security_alert, bind, now. rewrite getenv_run.
  destruct (env_lookup W "SECURITY_ALERT_TOPIC_ARN"); [| reflexivity].
  now rewrite invoke_run.
Qed.

Lemma store_audit_summary_run (events : list AuditEvent) (st : State) :
  store_audit_summary W events st =
  match env_lookup W "LOG_ANALYSIS_BUCKET" with
  | None => (Raise (KeyError "LOG_ANALYSIS_BUCKET"), st)
  | Some bucket =>
      let c := PutObject bucket
                 ("audit-summary/" ++ strftime_Ymd (utcnow W (ticks st)) ++ "/summary.json")
                 (json_dumps (audit_summary events (utcnow W (S (ticks st)))))
                 "application/json" in
      (answer W (ticked (ticked st)) c, sent_from (ticked (ticked st)) c)
  end.
Proof.
  unfold store_audit_summary, bind. rewrite getenv_run.
  destruct (env_lookup W "LOG_ANALYSIS_BUCKET"); [| reflexivity].
  unfold now. now rewrite invoke_run.
Qed.

Lemma store_processed_logs_run (log_data : pyval) (st : State) :
  store_processed_logs W log_data st =
  match env_lookup W "LOG_ANALYSIS_BUCKET" with
  | None => (Raise (KeyError "LOG_ANALYSIS_BUCKET"), st)
  | Some bucket =>
      match Py.getitem log_data "logStream" with
      | Raise e => (Raise e, ticked st)
      | Ok log_stream =>
          let c := PutObject bucket
                     ("processed/" ++ strftime_Ymd (utcnow W (ticks st)) ++ "/"
                      ++ format_value log_stream ++ ".json")
                     (json_dumps log_data) "application/json" in
          (answer W (ticked st) c, sent_from (ticked st) c)
      end
  end.
Proof.
  unfold store_processed_logs, bind. rewrite getenv_run.
  destruct (env_lookup W "LOG_ANALYSIS_BUCKET"); [| reflexivity].
  unfold now, lift. destruct (Py.getitem log_data "logStream"); [| reflexivity].
  now rewrite invoke_run.
Qed.

Lemma process_security_logs_records (recs : list LogRecord) (st : State) :
  process_security_logs W (VList (map event_of_record recs)) st =
  ((if count_if has_failed_auth recs >? 0
    then send_custom_metric W "FailedAuthentications"
           (PInt (count_if has_failed_auth recs)) "FHIRBridge/Security"
    else ret tt) ;;
   match flat_map record_activities recs with
   | [] => ret tt
   | _ :: _ => send_security_alert W (flat_map record_activities recs)
   end) st.
Proof.
  unfold process_security_logs, bind at 1 2, lift. cbn [Py.iter].
  now rewrite security_loop_records.
Qed.

Lemma process_audit_logs_records (recs : list LogRecord) (st : State) :
  process_audit_logs W (VList (map event_of_record recs)) st =
  match flat_map record_audit_events recs with
  | [] => (Ok tt, st)
  | _ :: _ => store_audit_summary W (flat_map record_audit_events recs) st
  end.
Proof.
  unfold process_audit_logs, bind at 1 2, lift. cbn [Py.iter].
  rewrite audit_loop_records. cbn [app].
  now destruct (flat_map record_audit_events recs).
Qed.

End WithWorld.
End SinkRuns.

Import SinkRuns.

(** X6.  On a batch of LogRecords the security extractor requests the
    metric "FailedAuthentications" exactly when at least one message
    contains "authentication failed" in some letter case; the request is the
    first one sent, under namespace "FHIRBridge/Security", and its value is
    the number of such records. *)
Theorem failed_authentications_metric {RT : PyRuntime} (W : World)
  (recs : list LogRecord) (st : State) :
  exists sent : list SinkCall,
    calls (snd (process_security_logs W (VList (map event_of_record recs)) st)) =
    (calls st ++ sent)%list /\
    filter (is_metric "FailedAuthentications") sent =
    (if count_if has_failed_auth recs >? 0
     then [PutMetricData "FHIRBridge/Security" "FailedAuthentications"
             (PInt (count_if has_failed_auth recs)) "Count" (utcnow W (ticks st))]
     else []) /\
    (0 < count_if has_failed_auth recs ->
     exists rest : list SinkCall,
       sent = PutMetricData "FHIRBridge/Security" "FailedAuthentications"
                (PInt (count_if has_failed_auth recs)) "Count" (utcnow W (ticks st))
              :: rest) /\
    (forall r : LogRecord,
       has_failed_auth r = true <->
       occurs_in_ignoring_case "authentication failed" (message r)).
Proof.
  rewrite process_security_logs_records. unfold bind.
  destruct (count_if has_failed_auth recs >? 0) eqn:Hn.
  - rewrite send_custom_metric_run. fold (metric_call W "FHIRBridge/Security"
      "FailedAuthentications" (PInt (count_if has_failed_auth recs)) st).
    destruct (sink_fault W (calls st) _) as [e |].
    + eexists. cbn [snd calls]. split; [reflexivity |]. split; [reflexivity |].
      split; [intros _; now eexists | intros r; now apply contains_lower_ignoring_case].
    + destruct (flat_map record_activities recs) as [|a acts] eqn:Hacts.
      * eexists. cbn [snd calls ret]. split; [reflexivity |]. split; [reflexivity |].
        split; [intros _; now eexists | intros r; now apply contains_lower_ignoring_case].
      * rewrite send_security_alert_run.
        destruct (env_lookup W "SECURITY_ALERT_TOPIC_ARN") as [topic |].
        -- eexists. cbn [snd calls sent_from ticked]. rewrite <- app_assoc.
           split; [reflexivity |]. split; [reflexivity |].
           split; [intros _; now eexists | intros r; now apply contains_lower_ignoring_case].
        -- eexists. cbn [snd calls ticked]. split; [reflexivity |]. split; [reflexivity |].
           split; [intros _; now eexists | intros r; now apply contains_lower_ignoring_case].
  - assert (Hle : ~ 0 < count_if has_failed_auth recs) by lia.
    unfold ret at 1.
    destruct (flat_map record_activities recs) as [|a acts] eqn:Hacts.
    + exists []. cbn [snd ret]. rewrite app_nil_r. split; [reflexivity |].
      split; [reflexivity |].
      split; [intros H; now destruct Hle | intros r; now apply contains_lower_ignoring_case].
    + rewrite send_security_alert_run.
      destruct (env_lookup W "SECURITY_ALERT_TOPIC_ARN") as [topic |].
      * eexists. cbn [snd calls sent_from ticked]. split; [reflexivity |].
        split; [reflexivity |].
        split; [intros H; now destruct Hle | intros r; now apply contains_lower_ignoring_case].
      * exists []. cbn [snd calls ticked]. rewrite app_nil_r. split; [reflexivity |].
        split; [reflexivity |].
        split; [intros H; now destruct Hle | intros r; now apply contains_lower_ignoring_case].
Qed.

(** X7.  On a batch of LogRecords the security extractor publishes at most
    one alert.  None is published when no record is suspicious, when
    SECURITY_ALERT_TOPIC_ARN is not set, or when the request for the metric
    raised (the extractor then raises what the request raised).  When some
    record is suspicious and the request for the metric (if one was made) did
    not raise: with the variable set, exactly one alert goes to that topic,
    listing every suspicious record in batch order; with the variable unset,
    the extractor raises KeyError. *)
Theorem security_alert_published {RT : PyRuntime} (W : World)
  (recs : list LogRecord) (st : State) :
  exists (r : result unit) (st' : State) (sent : list SinkCall),
    process_security_logs W (VList (map event_of_record recs)) st = (r, st') /\
    calls st' = (calls st ++ sent)%list /\
    (flat_map record_activities recs = [] -> filter is_publish sent = []) /\
    (env_lookup W "SECURITY_ALERT_TOPIC_ARN" = None -> filter is_publish sent = []) /\
    (flat_map record_activities recs <> [] ->
     (0 < count_if has_failed_auth recs ->
      sink_fault W (calls st)
        (metric_call W "FHIRBridge/Security" "FailedAuthentications"
           (PInt (count_if has_failed_auth recs)) st) = None) ->
     match env_lookup W "SECURITY_ALERT_TOPIC_ARN" with
     | Some topic =>
         filter is_publish sent =
         [Publish topic
            (json_dumps
               (alert_message (flat_map record_activities recs)
                  (utcnow W (if count_if has_failed_auth recs >? 0
                             then S (ticks st) else ticks st))))
            "FHIR Bridge Security Alert"]
     | None => r = Raise (KeyError "SECURITY_ALERT_TOPIC_ARN")
     end) /\
    (forall e : exn,
       0 < count_if has_failed_auth recs ->
       sink_fault W (calls st)
         (metric_call W "FHIRBridge/Security" "FailedAuthentications"
            (PInt (count_if has_failed_auth recs)) st) = Some e ->
       r = Raise e /\ filter is_publish sent = []) /\
    (length (filter is_publish sent) <= 1)%nat.
Proof.
  rewrite process_security_logs_records. unfold bind.
  destruct (count_if has_failed_auth recs >? 0) eqn:Hn.
  - rewrite send_custom_metric_run. fold (metric_call W "FHIRBridge/Security"
      "FailedAuthentications" (PInt (count_if has_failed_auth recs)) st).
    destruct (sink_fault W (calls st) _) as [e |] eqn:Hf.
    + eexists _, _, _. split; [reflexivity |]. cbn [calls]. split; [reflexivity |].
      split; [reflexivity |]. split; [reflexivity |].
      split; [| split; [| cbn; lia]].
      * intros _ Hok. assert (Hpos : 0 < count_if has_failed_auth recs) by lia.
        specialize (Hok Hpos). discriminate.
      * intros e' _ He'. injection He' as <-. now split.
    + destruct (flat_map record_activities recs) as [|a acts] eqn:Hacts.
      * eexists _, _, _. split; [reflexivity |]. cbn [calls]. split; [reflexivity |].
        split; [reflexivity |]. split; [reflexivity |].
        split; [intros H; now destruct H |].
        split; [intros e' _ He'; discriminate | cbn; lia].
      * rewrite send_security_alert_run.
        destruct (env_lookup W "SECURITY_ALERT_TOPIC_ARN") as [topic |].
        -- eexists _, _, _. split; [reflexivity |]. cbn [calls sent_from ticked].
           rewrite <- app_assoc. split; [reflexivity |].
           split; [discriminate |]. split; [discriminate |].
           split; [reflexivity |].
           split; [intros e' _ He'; discriminate | cbn; lia].
        -- eexists _, _, _. split; [reflexivity |]. cbn [calls ticked].
           split; [reflexivity |]. split; [reflexivity |]. split; [reflexivity |].
           split; [reflexivity |].
           split; [intros e' _ He'; discriminate | cbn; lia].
  - assert (Hle : ~ 0 < count_if has_failed_auth recs) by lia.
    unfold ret at 1.
    destruct (flat_map record_activities recs) as [|a acts] eqn:Hacts.
    + exists (Ok tt), st, []. rewrite app_nil_r. split; [reflexivity |].
      split; [reflexivity |]. split; [reflexivity |]. split; [reflexivity |].
      split; [intros H; now destruct H |].
      split; [intros e' Hpos; now destruct Hle | cbn; lia].
    + rewrite send_security_alert_run.
      destruct (env_lookup W "SECURITY_ALERT_TOPIC_ARN") as [topic |].
      * eexists _, _, _. split; [reflexivity |]. cbn [calls sent_from ticked].
        split; [reflexivity |]. split; [discriminate |]. split; [discriminate |].
        split; [reflexivity |].
        split; [intros e' Hpos; now destruct Hle | cbn; lia].
      * eexists _, _, []. split; [reflexivity |]. cbn [calls ticked].
        rewrite app_nil_r. split; [reflexivity |]. split; [reflexivity |].
        split; [reflexivity |]. split; [reflexivity |].
        split; [intros e' Hpos; now destruct Hle | cbn; lia].
Qed.

Section AlertRun.
#[local] Existing Instance Fixture.runtime.

Lemma security_alert_published_witness :
  exists (st' : State) (body : string),
    process_security_logs Fixture.world
      (VList (map event_of_record Fixture.security_records)) Fixture.start =
    (Ok tt, st') /\
    filter is_publish (calls st') =
    [Publish "arn:aws:sns:us-east-1:000000000000:security" body
       "FHIR Bridge Security Alert"].
Proof.
  destruct (security_alert_published Fixture.world Fixture.security_records Fixture.start)
    as (r & st' & sent & Hrun & Hcalls & _ & _ & Halert & _).
  assert (Hr : r = Ok tt).
  { assert (H := f_equal fst Hrun). cbn in H. now rewrite <- H. }
  subst r. exists st'. eexists. split; [exact Hrun |].
  rewrite Hcalls. cbn [Fixture.start calls app].
  specialize (Halert ltac:(discriminate) ltac:(reflexivity)).
  exact Halert.
Defined.

End AlertRun.

(** X8.  On a batch of LogRecords the audit extractor stores a summary
    exactly when at least one message parsed to an object.  With no such
    record it sends nothing, reads no clock and returns normally even when
    LOG_ANALYSIS_BUCKET is unset.  With some, and the variable unset, it
    raises KeyError before anything is sent.  With some, and the variable
    set, it sends one [PutObject] to that bucket under the key
    "audit-summary/<date>/summary.json" whose document counts the events and
    lists them in batch order; the document's date is a later clock reading
    than the key's. *)
Theorem audit_summary_stored {RT : PyRuntime} (W : World)
  (recs : list LogRecord) (st : State) :
  exists (r : result unit) (st' : State) (sent : list SinkCall),
    process_audit_logs W (VList (map event_of_record recs)) st = (r, st') /\
    calls st' = (calls st ++ sent)%list /\
    (flat_map record_audit_events recs = [] -> r = Ok tt /\ st' = st) /\
    (flat_map record_audit_events recs <> [] ->
     match env_lookup W "LOG_ANALYSIS_BUCKET" with
     | None => r = Raise (KeyError "LOG_ANALYSIS_BUCKET") /\ st' = st
     | Some bucket =>
         sent =
         [PutObject bucket
            ("audit-summary/" ++ strftime_Ymd (utcnow W (ticks st)) ++ "/summary.json")
            (json_dumps
               (audit_summary (flat_map record_audit_events recs)
                  (utcnow W (S (ticks st)))))
            "application/json"] /\
         ticks st' = S (S (ticks st))
     end).
Proof.
  rewrite process_audit_logs_records.
  destruct (flat_map record_audit_events recs) as [|a evs] eqn:Hevs.
  - exists (Ok tt), st, []. rewrite app_nil_r. repeat split. intros H. now destruct H.
  - rewrite store_audit_summary_run.
    destruct (env_lookup W "LOG_ANALYSIS_BUCKET") as [bucket |].
    + eexists _, _, _. split; [reflexivity |]. cbn [calls sent_from ticked ticks].
      split; [reflexivity |]. split; [discriminate |]. intros _. now split.
    + exists (Raise (KeyError "LOG_ANALYSIS_BUCKET")), st, []. rewrite app_nil_r.
      repeat split. discriminate.
Qed.

Section AuditSummaryRun.
#[local] Existing Instance Fixture.runtime.

Lemma audit_summary_stored_witness :
  exists (st' : State) (body : string),
    calls (snd (process_audit_logs Fixture.world
                  (VList (map event_of_record Fixture.audit_records)) Fixture.start)) =
    [PutObject "log-analysis" "audit-summary/2024/01/15/summary.json" body
       "application/json"] /\
    ticks st' = 2%nat.
Proof.
  destruct (audit_summary_stored Fixture.world Fixture.audit_records Fixture.start)
    as (r & st' & sent & Hrun & Hcalls & _ & Hsome).
  specialize (Hsome ltac:(discriminate)). cbn in Hsome. destruct Hsome as [Hsent Hticks].
  exists st'. eexists. rewrite Hrun. cbn [snd]. rewrite Hcalls, Hsent.
  split; [reflexivity | exact Hticks].
Defined.

End AuditSummaryRun.

Lemma audit_summary_stored_run {RT : PyRuntime} (W : World) (recs : list LogRecord)
  (st : State) (bucket : string) :
  env_lookup W "LOG_ANALYSIS_BUCKET" = Some bucket ->
  flat_map record_audit_events recs <> [] ->
  exists body : string,
    calls (snd (process_audit_logs W (VList (map event_of_record recs)) st)) =
    (calls st ++
     [PutObject bucket
        ("audit-summary/" ++ strftime_Ymd (utcnow W (ticks st)) ++ "/summary.json")
        body "application/json"])%list.
Proof.
  intros Hb Hne. rewrite process_audit_logs_records.
  destruct (flat_map record_audit_events recs) as [|a evs]; [now destruct Hne |].
  rewrite store_audit_summary_run, Hb. eexists. reflexivity.
Qed.

(** X9.  The key of the audit summary depends on the day of the clock
    reading only: two batches with audit events whose summaries are stored on
    the same day go to the same bucket and key, so the later one replaces the
    earlier. *)
Theorem audit_summary_key_collides {RT : PyRuntime} (W : World)
  (recs1 recs2 : list LogRecord) (st1 st2 : State) (bucket : string) :
  env_lookup W "LOG_ANALYSIS_BUCKET" = Some bucket ->
  flat_map record_audit_events recs1 <> [] ->
  flat_map record_audit_events recs2 <> [] ->
  strftime_Ymd (utcnow W (ticks st1)) = strftime_Ymd (utcnow W (ticks st2)) ->
  exists key body1 body2 : string,
    calls (snd (process_audit_logs W (VList (map event_of_record recs1)) st1)) =
    (calls st1 ++ [PutObject bucket key body1 "application/json"])%list /\
    calls (snd (process_audit_logs W (VList (map event_of_record recs2)) st2)) =
    (calls st2 ++ [PutObject bucket key body2 "application/json"])%list.
Proof.
  intros Hb H1 H2 Hday.
  destruct (audit_summary_stored_run W recs1 st1 bucket Hb H1) as [body1 Hr1].
  destruct (audit_summary_stored_run W recs2 st2 bucket Hb H2) as [body2 Hr2].
  exists ("audit-summary/" ++ strftime_Ymd (utcnow W (ticks st1)) ++ "/summary.json"),
    body1, body2.
  split; [exact Hr1 |]. rewrite Hday. exact Hr2.
Qed.

Section CollisionRun.
#[local] Existing Instance Fixture.runtime.

Lemma audit_summary_key_collides_witness :
  exists key body1 body2 : string,
    calls (snd (process_audit_logs Fixture.world
                  (VList (map event_of_record Fixture.audit_records)) Fixture.start)) =
    (calls Fixture.start ++ [PutObject "log-analysis" key body1 "application/json"])%list /\
    calls (snd (process_audit_logs Fixture.world
                  (VList (map event_of_record [{| timestamp := 9;
                                                  message := Fixture.audit_message |}]))
                  Fixture.afternoon)) =
    (calls Fixture.afternoon
     ++ [PutObject "log-analysis" key body2 "application/json"])%list.
Proof.
  apply (audit_summary_key_collides Fixture.world Fixture.audit_records
           [{| timestamp := 9; message := Fixture.audit_message |}]
           Fixture.start Fixture.afternoon "log-analysis").
  - reflexivity.
  - discriminate.
  - discriminate.
  - reflexivity.
Defined.

End CollisionRun.

Module HandlerRuns.
Section WithWorld.
Context {RT : PyRuntime} (W : World).

(** The handler's outcome from the outcome of its [try] block. *)
Lemma handler_outcome (event : pyval) (st : State) :
  (exists st' : State,
     pipeline W event st = (Ok success_response, st') /\
     handler W event st = (Ok success_response, st')) \/
  (exists (e : exn) (st' : State),
     pipeline W event st = (Raise e, st') /\
     handler W event st = (Ok (error_response e), printed st' e)).
Proof.
  destruct (pipeline_cases W event st) as [[st' Hc] | (e & st' & Hr)].
  - left. exists st'. split; [now apply completes_pipeline | now apply handler_completes].
  - right. exists e, st'.
    split; [now apply step_raises_pipeline | now apply handler_raises].
Qed.

Lemma store_processed_logs_success (log_data : pyval) (st st' : State) :
  store_processed_logs W log_data st = (Ok tt, st') ->
  exists (bucket : string) (log_stream : pyval),
    env_lookup W "LOG_ANALYSIS_BUCKET" = Some bucket /\
    Py.getitem log_data "logStream" = Ok log_stream /\
    ticks st' = S (ticks st) /\
    stdout st' = stdout st /\
    calls st' =
    (calls st ++
     [PutObject bucket
        ("processed/" ++ strftime_Ymd (utcnow W (ticks st)) ++ "/"
         ++ format_value log_stream ++ ".json")
        (json_dumps log_data) "application/json"])%list.
Proof.
  rewrite store_processed_logs_run.
  destruct (env_lookup W "LOG_ANALYSIS_BUCKET") as [bucket |]; [| discriminate].
  destruct (Py.getitem log_data "logStream") as [ls | e]; [| discriminate].
  cbv zeta. intros H. injection H as _ <-. exists bucket, ls. repeat split.
Qed.

End WithWorld.
End HandlerRuns.

(** X10.  For every event, the handler reads the clock at most three
    times and sends at most three requests, all added after the requests
    already sent. *)
Theorem handler_effect_bound {RT : PyRuntime} (W : World) (event : pyval) (st : State) :
  exists (resp : Response) (st' : State) (reads : nat) (sent : list SinkCall),
    handler W event st = (Ok resp, st') /\
    ticks st' = (ticks st + reads)%nat /\ (reads <= 3)%nat /\
    calls st' = (calls st ++ sent)%list /\ (length sent <= 3)%nat.
Proof.
  destruct (effect_pipeline W event st) as (reads & sent & (Ht & Hc & _) & Hr & Hs).
  destruct (HandlerRuns.handler_outcome W event st)
    as [(st' & Hp & Hh) | (e & st' & Hp & Hh)];
    rewrite Hp in Ht, Hc; cbn [snd] in Ht, Hc.
  - exists success_response, st', reads, sent. auto.
  - exists (error_response e), (printed st' e), reads, sent. auto.
Qed.

(** X11.  The handler prints nothing when it answers 200 and exactly one
    line when it answers 500; that line is the text that the body of the
    response carries. *)
Theorem handler_prints_on_error_only {RT : PyRuntime} (W : World) (event : pyval)
  (st : State) :
  exists (resp : Response) (st' : State),
    handler W event st = (Ok resp, st') /\
    (statusCode resp = 200 -> stdout st' = stdout st) /\
    (statusCode resp = 500 ->
     exists line : string,
       stdout st' = (stdout st ++ [line])%list /\
       body resp = json_dumps (VStr line)).
Proof.
  destruct (effect_pipeline W event st) as (reads & sent & (_ & _ & Ho) & _).
  destruct (HandlerRuns.handler_outcome W event st)
    as [(st' & Hp & Hh) | (e & st' & Hp & Hh)];
    rewrite Hp in Ho; cbn [snd] in Ho.
  - exists success_response, st'. split; [exact Hh |].
    split; [intros _; exact Ho | discriminate].
  - exists (error_response e), (printed st' e). split; [exact Hh |].
    split; [discriminate |]. intros _. eexists. cbn [printed stdout]. rewrite Ho.
    split; reflexivity.
Qed.

(** X12.  A payload that does not decode, or a decoded batch in which
    logGroup, logStream or logEvents cannot be read, is answered with 500
    before anything else happens: no clock reading, no request, one printed
    line. *)
Theorem rejected_before_any_effect {RT : PyRuntime} (W : World) (event : pyval)
  (st : State) :
  (forall e : exn,
     decode event = Raise e ->
     handler W event st = (Ok (error_response e), printed st e)) /\
  (forall (log_data : pyval) (key : string) (e0 : exn),
     decode event = Ok log_data ->
     In key ["logGroup"; "logStream"; "logEvents"] ->
     Py.getitem log_data key = Raise e0 ->
     exists e : exn, handler W event st = (Ok (error_response e), printed st e)).
Proof.
  split.
  - intros e Hd. apply handler_raises. now left.
  - intros log_data key e0 Hd Hin Hkey.
    destruct (Py.getitem log_data "logGroup") as [lg | e1] eqn:Hg.
    2:{ exists e1. apply handler_raises. right; left. exists log_data. auto. }
    destruct (Py.getitem log_data "logStream") as [ls | e2] eqn:Hs.
    2:{ exists e2. apply handler_raises. right; left. exists log_data.
        repeat split; auto. right; left. now exists lg. }
    destruct (Py.getitem log_data "logEvents") as [evs | e3] eqn:He.
    2:{ exists e3. apply handler_raises. right; left. exists log_data.
        repeat split; auto. right; right. now exists lg, ls. }
    destruct Hin as [<- | [<- | [<- | []]]]; congruence.
Qed.

Section RejectedRun.
#[local] Existing Instance Fixture.runtime.

Lemma rejected_before_any_effect_witness :
  exists e : exn,
    handler Fixture.world
      (Fixture.lambda_event (VDict [("logGroup", VStr "application");
                                    ("logEvents", VList [])])) Fixture.start =
    (Ok (error_response e), printed Fixture.start e).
Proof.
  apply (proj2 (rejected_before_any_effect Fixture.world
                  (Fixture.lambda_event (VDict [("logGroup", VStr "application");
                                                ("logEvents", VList [])]))
                  Fixture.start)
           (VDict [("logGroup", VStr "application"); ("logEvents", VList [])])
           "logStream" (KeyError "logStream")).
  - reflexivity.
  - right. now left.
  - reflexivity.
Defined.

End RejectedRun.

(** X13.  A log group that is null, a boolean or a number cannot be
    searched: the handler answers 500 with the TypeError of the first test,
    and no extractor runs and nothing is stored. *)
Theorem unsearchable_log_group_is_rejected {RT : PyRuntime} (W : World)
  (event log_data log_group log_stream log_events : pyval) (st : State) :
  decode event = Ok log_data ->
  Py.getitem log_data "logGroup" = Ok log_group ->
  Py.getitem log_data "logStream" = Ok log_stream ->
  Py.getitem log_data "logEvents" = Ok log_events ->
  match log_group with
  | VNone | VBool _ | VInt _ | VFloat _ => True
  | _ => False
  end ->
  handler W event st =
  (Ok (error_response
         (TypeError ("argument of type " ++ Py.quoted (Py.type_name log_group)
                     ++ " is not iterable"))),
   printed st
     (TypeError ("argument of type " ++ Py.quoted (Py.type_name log_group)
                 ++ " is not iterable"))).
Proof.
  intros Hd Hg Hs He Hshape. apply handler_raises. right; right.
  exists log_data, log_group, log_stream, log_events. repeat split; auto. left.
  unfold dispatch, bind, lift.
  destruct log_group; try contradiction; reflexivity.
Qed.

Section UnsearchableRun.
#[local] Existing Instance Fixture.runtime.

Lemma unsearchable_log_group_is_rejected_witness :
  handler Fixture.world
    (Fixture.lambda_event (VDict [("logGroup", VInt 7);
                                  ("logStream", VStr "s");
                                  ("logEvents", VList [])])) Fixture.start =
  (Ok (error_response (TypeError "argument of type 'int' is not iterable")),
   printed Fixture.start (TypeError "argument of type 'int' is not iterable")).
Proof.
  apply (unsearchable_log_group_is_rejected Fixture.world
           (Fixture.lambda_event (VDict [("logGroup", VInt 7);
                                         ("logStream", VStr "s");
                                         ("logEvents", VList [])]))
           (VDict [("logGroup", VInt 7); ("logStream", VStr "s"); ("logEvents", VList [])])
           (VInt 7) (VStr "s") (VList []) Fixture.start); reflexivity || exact I.
Defined.

End UnsearchableRun.

(** X14.  For a log group that contains none of the three substrings the
    events are never looked at: whatever [logEvents] holds, the handler only
    tries to store the batch.  With LOG_ANALYSIS_BUCKET unset it answers 500
    without sending anything; with it set it sends exactly one request, the
    [PutObject] of the batch, and answers 200 exactly when that request does
    not raise. *)
Theorem unknown_group_only_persists {RT : PyRuntime} (W : World)
  (event log_data : pyval) (log_group log_stream : string) (log_events : pyval)
  (st : State) :
  decode event = Ok log_data ->
  Py.getitem log_data "logGroup" = Ok (VStr log_group) ->
  Py.getitem log_data "logStream" = Ok (VStr log_stream) ->
  Py.getitem log_data "logEvents" = Ok log_events ->
  classify log_group = Unknown ->
  exists (resp : Response) (st' : State),
    handler W event st = (Ok resp, st') /\
    match env_lookup W "LOG_ANALYSIS_BUCKET" with
    | None =>
        resp = error_response (KeyError "LOG_ANALYSIS_BUCKET") /\
        calls st' = calls st /\ ticks st' = ticks st
    | Some bucket =>
        calls st' =
        (calls st ++
         [PutObject bucket
            ("processed/" ++ strftime_Ymd (utcnow W (ticks st)) ++ "/" ++ log_stream
             ++ ".json")
            (json_dumps log_data) "application/json"])%list /\
        ticks st' = S (ticks st) /\
        (statusCode resp = 200 <->
         sink_fault W (calls st)
           (PutObject bucket
              ("processed/" ++ strftime_Ymd (utcnow W (ticks st)) ++ "/" ++ log_stream
               ++ ".json")
              (json_dumps log_data) "application/json") = None)
    end.
Proof.
  intros Hd Hg Hs He Hclass.
  assert (Hp : pipeline W event st =
               (store_processed_logs W log_data ;; ret success_response) st).
  { unfold pipeline, bind at 1 2 3 4, lift. rewrite Hd, Hg, Hs, He.
    unfold bind at 1 3. rewrite dispatch_classify, Hclass. reflexivity. }
  unfold handler, try_except. rewrite Hp. unfold bind.
  rewrite store_processed_logs_run, Hs.
  destruct (env_lookup W "LOG_ANALYSIS_BUCKET") as [bucket |].
  - cbv zeta. unfold answer. cbn [ticked calls format_value].
    destruct (sink_fault W (calls st) _) as [e |].
    + eexists _, _. split; [reflexivity |]. cbn.
      split; [reflexivity |]. split; [reflexivity |]. split; discriminate.
    + eexists _, _. split; [reflexivity |]. cbn.
      split; [reflexivity |]. split; [reflexivity |]. split; reflexivity.
  - eexists _, _. split; [reflexivity |]. cbn. repeat split.
Qed.

Section UnknownRun.
#[local] Existing Instance Fixture.runtime.

Lemma unknown_group_only_persists_witness :
  exists (resp : Response) (st' : State),
    handler Fixture.world
      (Fixture.lambda_event (VDict [("logGroup", VStr "billing");
                                    ("logStream", VStr "s");
                                    ("logEvents", VInt 0)])) Fixture.start =
    (Ok resp, st') /\
    statusCode resp = 200 /\ length (calls st') = 1%nat.
Proof.
  destruct (unknown_group_only_persists Fixture.world
              (Fixture.lambda_event (VDict [("logGroup", VStr "billing");
                                            ("logStream", VStr "s");
                                            ("logEvents", VInt 0)]))
              (VDict [("logGroup", VStr "billing"); ("logStream", VStr "s");
                      ("logEvents", VInt 0)])
              "billing" "s" (VInt 0) Fixture.start)
    as (resp & st' & Hrun & Hout); try reflexivity.
  exists resp, st'. split; [exact Hrun |]. cbn in Hout.
  destruct Hout as (Hcalls & _ & H200). split; [now apply H200 | now rewrite Hcalls].
Defined.

End UnknownRun.

(** X15.  The handler answers 200 only if LOG_ANALYSIS_BUCKET is set, and
    then the last request is the [PutObject] of the decoded batch to that
    bucket, under the key "processed/<date>/<logStream>.json" built from the
    last clock reading, with content type "application/json". *)
Theorem success_stores_in_configured_bucket {RT : PyRuntime} (W : World)
  (event log_data : pyval) (log_stream : string) (st : State) (resp : Response)
  (st' : State) :
  decode event = Ok log_data ->
  Py.getitem log_data "logStream" = Ok (VStr log_stream) ->
  handler W event st = (Ok resp, st') ->
  statusCode resp = 200 ->
  exists (bucket : string) (sent : list SinkCall),
    env_lookup W "LOG_ANALYSIS_BUCKET" = Some bucket /\
    calls st' =
    (sent ++
     [PutObject bucket
        ("processed/" ++ strftime_Ymd (utcnow W (Nat.pred (ticks st'))) ++ "/"
         ++ log_stream ++ ".json")
        (json_dumps log_data) "application/json"])%list.
Proof.
  intros Hd Hs Hh H200.
  destruct (pipeline_cases W event st) as [[stf Hc] | (e & stf & Hr)].
  - rewrite (handler_completes _ _ _ _ Hc) in Hh. injection Hh as _ <-.
    destruct Hc as (ld & lg & ls & evs & st1 & Hd' & _ & _ & _ & _ & Hp).
    assert (ld = log_data) by congruence. subst ld.
    apply HandlerRuns.store_processed_logs_success in Hp.
    destruct Hp as (bucket & ls' & Hb & Hs' & Ht & _ & Hcalls).
    assert (ls' = VStr log_stream) by congruence. subst ls'.
    exists bucket, (calls st1). split; [exact Hb |].
    rewrite Hcalls, Ht. reflexivity.
  - rewrite (handler_raises _ _ _ _ _ Hr) in Hh. injection Hh as <- _. discriminate.
Qed.

Section SuccessRun.
#[local] Existing Instance Fixture.runtime.

Lemma success_stores_in_configured_bucket_witness :
  exists (bucket : string) (sent : list SinkCall),
    env_lookup Fixture.world "LOG_ANALYSIS_BUCKET" = Some bucket /\
    calls (snd (handler Fixture.world
                  (Fixture.lambda_event (batch_json Fixture.application_batch))
                  Fixture.start)) =
    (sent ++
     [PutObject bucket "processed/2024/01/15/stream-1.json"
        (json_dumps (batch_json Fixture.application_batch)) "application/json"])%list.
Proof.
  assert (Hrun : handler Fixture.world
                   (Fixture.lambda_event (batch_json Fixture.application_batch))
                   Fixture.start =
                 (Ok success_response,
                  snd (handler Fixture.world
                         (Fixture.lambda_event (batch_json Fixture.application_batch))
                         Fixture.start))) by reflexivity.
  destruct (success_stores_in_configured_bucket Fixture.world
              (Fixture.lambda_event (batch_json Fixture.application_batch))
              (batch_json Fixture.application_batch) "stream-1" Fixture.start
              success_response
              (snd (handler Fixture.world
                      (Fixture.lambda_event (batch_json Fixture.application_batch))
                      Fixture.start)))
    as (bucket & sent & Hb & Hcalls); [reflexivity | reflexivity | exact Hrun | reflexivity |].
  exists bucket, sent. split; [exact Hb |]. rewrite Hcalls. reflexivity.
Defined.

End SuccessRun.

(** X16.  With LOG_ANALYSIS_BUCKET unset no invocation succeeds: whatever
    the event, the handler answers 500. *)
Theorem no_success_without_bucket {RT : PyRuntime} (W : World) (event : pyval)
  (st : State) :
  env_lookup W "LOG_ANALYSIS_BUCKET" = None ->
  exists (resp : Response) (st' : State),
    handler W event st = (Ok resp, st') /\ statusCode resp = 500.
Proof.
  intros Hb.
  destruct (pipeline_cases W event st) as [[stf Hc] | (e & stf & Hr)].
  - destruct Hc as (ld & lg & ls & evs & st1 & _ & _ & _ & _ & _ & Hp).
    apply HandlerRuns.store_processed_logs_success in Hp.
    destruct Hp as (bucket & _ & Hb' & _). congruence.
  - exists (error_response e). eexists.
    split; [now apply handler_raises; eassumption | reflexivity].
Qed.

Section UnconfiguredRun.
#[local] Existing Instance Fixture.runtime.

Lemma no_success_without_bucket_witness :
  exists (resp : Response) (st' : State),
    handler Fixture.world_unconfigured
      (Fixture.lambda_event (batch_json Fixture.application_batch)) Fixture.start =
    (Ok resp, st') /\ statusCode resp = 500.
Proof.
  apply (no_success_without_bucket Fixture.world_unconfigured). reflexivity.
Defined.

End UnconfiguredRun.

Module AuditLoop.

(** One turn of the audit loop, on an event of any shape: it returns
    normally and appends at most one event. *)
Lemma audit_step_ok {RT : PyRuntime} (event : pyval) (events : list AuditEvent) :
  exists added : list AuditEvent,
    (length added <= 1)%nat /\
    forall st : State, audit_step event events st = (Ok (events ++ added)%list, st).
Proof.
  unfold audit_step, try_except, bind, lift, ret.
  destruct (Py.getitem event "message") as [message | e];
    [| exists []; rewrite app_nil_r; split; [cbn; lia | reflexivity]].
  destruct (json_loads message) as [audit_data | e];
    [| exists []; rewrite app_nil_r; split; [cbn; lia | reflexivity]].
  destruct (Py.getitem event "timestamp") as [ts | e];
    [| exists []; rewrite app_nil_r; split; [cbn; lia | reflexivity]].
  destruct audit_data;
    try (exists []; rewrite app_nil_r; split; [cbn; lia | reflexivity]).
  cbn [Py.get].
  destruct (Py.dict_lookup d "userId"), (Py.dict_lookup d "action"),
    (Py.dict_lookup d "resourceType"), (Py.dict_lookup d "resourceId"),
    (Py.dict_lookup d "outcome");
    eexists [_]; (split; [cbn; lia | reflexivity]).
Qed.

Lemma audit_loop_ok {RT : PyRuntime} (l : list pyval) (events : list AuditEvent) :
  exists added : list AuditEvent,
    (length added <= length l)%nat /\
    forall st : State,
      for_each audit_step l events st = (Ok (events ++ added)%list, st).
Proof.
  revert events. induction l as [|event l IH]; intros events.
  - exists []. rewrite app_nil_r. split; [cbn; lia | reflexivity].
  - destruct (audit_step_ok event events) as (a1 & Hlen1 & Hstep).
    destruct (IH (events ++ a1)%list) as (a2 & Hlen2 & Hrest).
    exists (a1 ++ a2)%list. rewrite length_app. split; [cbn [length]; lia |].
    intros st. cbn [for_each]. unfold bind. rewrite Hstep, Hrest.
    now rewrite app_assoc.
Qed.

End AuditLoop.

(** X17.  Events of any shape never make the audit extractor fail: its
    loop collects at most one audit event per item and the extractor then
    either stores a summary or, with nothing collected, returns normally
    without touching the state; it can raise only from storing the
    summary. *)
Theorem audit_tolerates_malformed_records {RT : PyRuntime} (W : World)
  (events : list pyval) (st : State) :
  exists audit_events : list AuditEvent,
    (length audit_events <= length events)%nat /\
    process_audit_logs W (VList events) st =
    match audit_events with
    | [] => (Ok tt, st)
    | _ :: _ => store_audit_summary W audit_events st
    end.
Proof.
  destruct (AuditLoop.audit_loop_ok events []) as (added & Hlen & Hloop).
  exists added. split; [exact Hlen |].
  unfold process_audit_logs, bind at 1 2, lift. cbn [Py.iter]. rewrite Hloop.
  cbn [app]. now destruct added.
Qed.

(** X18.  On a batch of LogRecords with at least one error and with
    samples whose average is the float [avg] (the division does not raise),
    when the metrics service accepts the error count, the application
    extractor sends exactly two requests in this order: the error count with
    the first clock reading, then the average with the next one. *)
Theorem error_count_precedes_average {RT : PyRuntime} (W : World)
  (recs : list LogRecord) (st : State) (avg : spec_float) :
  0 < count_if has_error recs ->
  average_duration (flat_map record_samples recs) = Ok avg ->
  sink_fault W (calls st) (errors_call W (count_if has_error recs) st) = None ->
  calls (snd (process_application_logs W (VList (map event_of_record recs)) st)) =
  (calls st ++
   [PutMetricData "FHIRBridge/Application" "ApplicationErrors"
      (PInt (count_if has_error recs)) "Count" (utcnow W (ticks st));
    PutMetricData "FHIRBridge/Performance" "AverageResponseTime" (PFloat avg)
      "Count" (utcnow W (S (ticks st)))])%list.
Proof.
  intros Hn Havg Hok.
  destruct (process_application_logs_calls W recs st) as (r & st' & Hrun & Hcalls).
  rewrite Hrun. cbn [snd]. rewrite Hcalls. f_equal.
  unfold application_calls, average_call. rewrite Hok, Havg.
  replace (count_if has_error recs >? 0) with true by (symmetry; lia).
  cbn [andb app]. destruct (flat_map record_samples recs); [| reflexivity].
  discriminate.
Qed.

Section OrderRun.
#[local] Existing Instance Fixture.runtime.

Lemma error_count_precedes_average_witness :
  calls (snd (process_application_logs Fixture.world
                (VList (map event_of_record (records Fixture.application_batch)))
                Fixture.start)) =
  [PutMetricData "FHIRBridge/Application" "ApplicationErrors" (PInt 1) "Count"
     (Fixture.clock 0);
   PutMetricData "FHIRBridge/Performance" "AverageResponseTime"
     (PFloat (S754_finite false 7036874417766400 (-46))) "Count" (Fixture.clock 1)].
Proof.
  apply (error_count_precedes_average Fixture.world (records Fixture.application_batch)
           Fixture.start).
  - reflexivity.
  - reflexivity.
  - reflexivity.
Defined.

End OrderRun.
